(** * Gas estimation for ERC-4337 user operations (alto, entry point 0.7)

    A shallow embedding of the gas-estimation module of the bundler
    ([calcDefaultPreVerificationGas], [packUserOp],
    [packedUserOperationToRandomDataUserOp], [calcPreVerificationGas],
    [calcOptimismPreVerificationGas], [calcArbitrumPreVerificationGas],
    [calcVerificationGasAndCallGasLimit], [parseViemError]) and the
    properties of it that the specification states.

    Conventions of the embedding
    - a JS [bigint] is a [Z]; [/] on bigints is [Z.quot] and throws a
      [RangeError] on a zero divisor;
    - a JS [number] that holds a gas constant is a [Z]; the one real-valued
      expression of the module is evaluated in [Q] (exact rationals, which
      is what the doubles of the code hold for the default overheads);
    - a viem [Hex] value is a [string] ("0x" followed by hex digits), so
      that [.length] is [String.length];
    - a [Uint8Array] is a [list byte];
    - a thrown exception is the left injection of [Result];
    - an [async] function is a [Promise]: the collaborator calls it made,
      in order, and its outcome. *)

From Stdlib Require Import ZArith QArith Qround Lqa String Ascii Bool Lia.
From Stdlib Require Import Strings.Byte.
From Stdlib Require Import List.
Import ListNotations.

Local Open Scope string_scope.
Local Open Scope list_scope.
Local Open Scope Z_scope.

(** ** Exceptions and fallible computations *)

Inductive Exception : Type :=
| RpcError (message : string)      (* the module's own [RpcError] class *)
| RangeError (message : string)    (* JS runtime: bigint division by zero, BigInt(NaN), Buffer.alloc(-1) *)
| TypeError (message : string)     (* JS runtime: reduce of an empty array *)
| ViemError (message : string)     (* viem: a value it rejects (bad hex, bad ABI value) *)
| Rejected (reason : string).      (* a collaborator call (RPC, contract read) rejected *)

Definition Result (A : Type) : Type := (Exception + A)%type.

Definition ok {A} (a : A) : Result A := inr a.
Definition throw {A} (e : Exception) : Result A := inl e.

Definition bindR {A B} (c : Result A) (k : A -> Result B) : Result B :=
  match c with
  | inl e => inl e
  | inr a => k a
  end.

Notation "x <- c ;; k" := (bindR c (fun x => k))
  (at level 61, c at next level, right associativity).

(** ** Hex strings (viem's [Hex]) *)

Module Hex.

Definition hexDigits : string := "0123456789abcdef".

Definition hexDigit (n : N) : ascii :=
  match String.get (N.to_nat n) hexDigits with
  | Some c => c
  | None => "0"%char
  end.

Definition byteToHex (b : byte) : string :=
  let n := Byte.to_N b in
  String (hexDigit (n / 16)) (String (hexDigit (n mod 16)) EmptyString).

Fixpoint digitsOf (bs : list byte) : string :=
  match bs with
  | [] => EmptyString
  | b :: rest => (byteToHex b ++ digitsOf rest)%string
  end.

(** [bytesToHex(bytes)]: "0x", then two lower-case digits per byte. *)
Definition bytesToHex (bs : list byte) : string :=
  ("0x" ++ digitsOf bs)%string.

Definition charCodeToBase16 (c : ascii) : option N :=
  let n := N_of_ascii c in
  if ((48 <=? n) && (n <=? 57))%N then Some (n - 48)%N
  else if ((65 <=? n) && (n <=? 70))%N then Some (n - 55)%N
  else if ((97 <=? n) && (n <=? 102))%N then Some (n - 87)%N
  else None.

Fixpoint parseDigits (s : string) : option (list byte) :=
  match s with
  | EmptyString => Some []
  | String _ EmptyString => None
  | String a (String b rest) =>
      match charCodeToBase16 a, charCodeToBase16 b, parseDigits rest with
      | Some h, Some l, Some bs =>
          match Byte.of_N (16 * h + l) with
          | Some x => Some (x :: bs)
          | None => None
          end
      | _, _, _ => None
      end
  end.

(** The byte sequence a hex string denotes.  Strings that are not "0x"
    followed by an even number of hex digits denote none ([None]): the
    library rejects or re-pads them, and no statement below relies on
    them. *)
Definition hexToBytes (h : string) : option (list byte) :=
  match h with
  | String "0" (String "x" digits) => parseDigits digits
  | _ => None
  end.

(** [toBytes(hex)] of viem, on a hex string. *)
Definition toBytes (h : string) : Result (list byte) :=
  match hexToBytes h with
  | Some bs => ok bs
  | None => throw (ViemError "invalid hex")
  end.

(** [concat([a, b, ...])] of viem on hex strings: the digits, in order. *)
Definition digits (h : string) : string :=
  match h with
  | String "0" (String "x" d) => d
  | _ => h
  end.

Definition concat (hs : list string) : string :=
  ("0x" ++ String.concat "" (map digits hs))%string.

End Hex.

(** ** The contract ABI encoding used by [packUserOp] *)

Module Abi.

Definition byteOfZ (z : Z) : byte :=
  match Byte.of_N (Z.to_N (z mod 256)) with
  | Some b => b
  | None => x00
  end.

(** [n] bytes, big endian, of [z]. *)
Fixpoint bigEndian (n : nat) (z : Z) : list byte :=
  match n with
  | O => []
  | S m => bigEndian m (z / 256) ++ [byteOfZ z]
  end.

Definition padRight (bs : list byte) : list byte :=
  bs ++ repeat x00 ((32 - length bs mod 32) mod 32)%nat.

(** [uint256]: one word; out-of-range integers are rejected. *)
Definition encodeNumber (z : Z) : Result (list byte) :=
  if (0 <=? z) && (z <? 2 ^ 256)
  then ok (bigEndian 32 z)
  else throw (ViemError "integer out of range").

(** [address]: twenty bytes, left-padded to a word. *)
Definition encodeAddress (a : string) : Result (list byte) :=
  match Hex.hexToBytes a with
  | Some bs =>
      if (length bs =? 20)%nat then ok (repeat x00 12 ++ bs)
      else throw (ViemError "invalid address")
  | None => throw (ViemError "invalid address")
  end.

(** [bytes32]: exactly thirty-two bytes. *)
Definition encodeBytes32 (h : string) : Result (list byte) :=
  match Hex.hexToBytes h with
  | Some bs =>
      if (length bs =? 32)%nat then ok bs
      else throw (ViemError "bytes size mismatch")
  | None => throw (ViemError "invalid hex")
  end.

(** [bytes]: the length word, then the data right-padded to whole words. *)
Definition encodeBytes (h : string) : Result (list byte) :=
  match Hex.hexToBytes h with
  | Some bs => ok (bigEndian 32 (Z.of_nat (length bs)) ++ padRight bs)
  | None => throw (ViemError "invalid hex")
  end.

Inductive PreparedParam : Type :=
| Static (encoded : list byte)
| Dynamic (encoded : list byte).

Definition headSize (p : PreparedParam) : nat :=
  match p with
  | Static e => length e
  | Dynamic _ => 32
  end.

Definition tailSize (p : PreparedParam) : nat :=
  match p with
  | Static _ => 0%nat
  | Dynamic e => length e
  end.

(** The bytes a parameter list takes once encoded. *)
Definition totalSize (ps : list PreparedParam) : nat :=
  fold_right (fun p acc => (headSize p + tailSize p + acc)%nat) 0%nat ps.

Definition staticSize (ps : list PreparedParam) : nat :=
  fold_left (fun acc p => (acc + headSize p)%nat) ps 0%nat.

(** Second pass of [encodeParams]: the head so far, the tail so far. *)
Fixpoint splitParams (static : nat) (ps : list PreparedParam)
         (heads tails : list byte) : list byte * list byte :=
  match ps with
  | [] => (heads, tails)
  | Static e :: rest => splitParams static rest (heads ++ e) tails
  | Dynamic e :: rest =>
      splitParams static rest
            (heads ++ bigEndian 32 (Z.of_nat (static + length tails)))
            (tails ++ e)
  end.

Definition encodeParams (ps : list PreparedParam) : list byte :=
  let (heads, tails) := splitParams (staticSize ps) ps [] [] in
  heads ++ tails.

(** A value together with its ABI type, as the two argument lists of
    [encodeAbiParameters] pair them. *)
Inductive Param : Type :=
| address (value : string)
| uint256 (value : Z)
| bytes32 (value : string)
| bytes (value : string).

Definition prepareParam (p : Param) : Result PreparedParam :=
  match p with
  | address a => e <- encodeAddress a ;; ok (Static e)
  | uint256 z => e <- encodeNumber z ;; ok (Static e)
  | bytes32 h => e <- encodeBytes32 h ;; ok (Static e)
  | bytes h => e <- encodeBytes h ;; ok (Dynamic e)
  end.

Fixpoint prepareParams (ps : list Param) : Result (list PreparedParam) :=
  match ps with
  | [] => ok []
  | p :: rest =>
      q <- prepareParam p ;;
      qs <- prepareParams rest ;;
      ok (q :: qs)
  end.

Definition encodeAbiParameters (ps : list Param) : Result string :=
  prepared <- prepareParams ps ;;
  ok (Hex.bytesToHex (encodeParams prepared)).

End Abi.

(** ** Data model *)

(** Modelled from the spec: the type [UnPackedUserOperation] is declared in
    the types package, which is not among the sources.  The fields are
    those of the spec's data model: integers are bigints, byte sequences
    and addresses are hex strings; [paymaster] is absent when the operation
    has none. *)
Module UserOp.
Record t : Type := mk {
  sender : string;
  nonce : Z;
  initCode : string;
  callData : string;
  callGasLimit : Z;
  verificationGasLimit : Z;
  preVerificationGas : Z;
  maxFeePerGas : Z;
  maxPriorityFeePerGas : Z;
  paymaster : option string;
  paymasterVerificationGasLimit : Z;
  paymasterPostOpGasLimit : Z;
  paymasterData : string;
  signature : string
}.

(** [uop.signature = s] on a copy of the operation. *)
Definition withSignature (op : t) (s : string) : t :=
  mk (sender op) (nonce op) (initCode op) (callData op) (callGasLimit op)
     (verificationGasLimit op) (preVerificationGas op) (maxFeePerGas op)
     (maxPriorityFeePerGas op) (paymaster op)
     (paymasterVerificationGasLimit op) (paymasterPostOpGasLimit op)
     (paymasterData op) s.

Definition withCallData (op : t) (d : string) : t :=
  mk (sender op) (nonce op) (initCode op) d (callGasLimit op)
     (verificationGasLimit op) (preVerificationGas op) (maxFeePerGas op)
     (maxPriorityFeePerGas op) (paymaster op)
     (paymasterVerificationGasLimit op) (paymasterPostOpGasLimit op)
     (paymasterData op) (signature op).

Definition withInitCode (op : t) (c : string) : t :=
  mk (sender op) (nonce op) c (callData op) (callGasLimit op)
     (verificationGasLimit op) (preVerificationGas op) (maxFeePerGas op)
     (maxPriorityFeePerGas op) (paymaster op)
     (paymasterVerificationGasLimit op) (paymasterPostOpGasLimit op)
     (paymasterData op) (signature op).
End UserOp.

(** The packed form: gas-limit pairs and fee pairs are 32-byte hex words,
    the paymaster fields one hex string. *)
Module Packed.
Record t : Type := mk {
  sender : string;
  nonce : Z;
  initCode : string;
  callData : string;
  accountGasLimits : string;
  preVerificationGas : Z;
  gasFees : string;
  paymasterAndData : string;
  signature : string
}.
End Packed.

Definition UnPackedUserOperation : Type := UserOp.t.
Definition PackedUserOperation : Type := Packed.t.

(** [numberToHex(n, {size})]: [size] bytes, big endian. *)
Definition numberToHex (size : nat) (n : Z) : string :=
  Hex.bytesToHex (Abi.bigEndian size n).

(** Modelled from the spec: [toPackedUserOperation] lives in the module
    [./userop], which is not among the sources.  Following the spec's data
    model, the two gas limits and the two fees are concatenated into
    32-byte words (sixteen bytes each) and the paymaster fields into one
    byte sequence, empty when there is no paymaster; the other fields are
    copied. *)
Definition toPackedUserOperation (op : UnPackedUserOperation)
  : PackedUserOperation :=
  {| Packed.sender := UserOp.sender op;
     Packed.nonce := UserOp.nonce op;
     Packed.initCode := UserOp.initCode op;
     Packed.callData := UserOp.callData op;
     Packed.accountGasLimits :=
       Hex.concat [numberToHex 16 (UserOp.verificationGasLimit op);
                   numberToHex 16 (UserOp.callGasLimit op)];
     Packed.preVerificationGas := UserOp.preVerificationGas op;
     Packed.gasFees :=
       Hex.concat [numberToHex 16 (UserOp.maxPriorityFeePerGas op);
                   numberToHex 16 (UserOp.maxFeePerGas op)];
     Packed.paymasterAndData :=
       match UserOp.paymaster op with
       | None => "0x"
       | Some a =>
           Hex.concat [a;
                       numberToHex 16 (UserOp.paymasterVerificationGasLimit op);
                       numberToHex 16 (UserOp.paymasterPostOpGasLimit op);
                       UserOp.paymasterData op]
       end;
     Packed.signature := UserOp.signature op |}.

(** ** Gas overheads *)

Record GasOverheads : Type := {
  fixed : Z;
  perUserOp : Z;
  perUserOpWord : Z;
  zeroByte : Z;
  nonZeroByte : Z;
  bundleSize : Z;
  sigSize : Z
}.

Definition DefaultGasOverheads : GasOverheads :=
  {| fixed := 21000;
     perUserOp := 18300;
     perUserOpWord := 4;
     zeroByte := 4;
     nonZeroByte := 16;
     bundleSize := 1;
     sigSize := 65 |}.

(** [Partial<GasOverheads>]: a key that is absent is [None]. *)
Module Partial.
Record t : Type := mk {
  fixed : option Z;
  perUserOp : option Z;
  perUserOpWord : option Z;
  zeroByte : option Z;
  nonZeroByte : option Z;
  bundleSize : option Z;
  sigSize : option Z
}.
Definition empty : t := mk None None None None None None None.
End Partial.

(** A full [GasOverheads] passed where a [Partial<GasOverheads>] is
    expected: every key is present. *)
Definition asPartial (o : GasOverheads) : Partial.t :=
  Partial.mk (Some (fixed o)) (Some (perUserOp o)) (Some (perUserOpWord o))
             (Some (zeroByte o)) (Some (nonZeroByte o)) (Some (bundleSize o))
             (Some (sigSize o)).

Definition orElse {A} (o : option A) (d : A) : A :=
  match o with
  | Some a => a
  | None => d
  end.

(** [{ ...defaults, ...(overheads ?? {}) }] *)
Definition spread (defaults : GasOverheads) (overheads : option Partial.t)
  : GasOverheads :=
  let o := orElse overheads Partial.empty in
  {| fixed := orElse (Partial.fixed o) (fixed defaults);
     perUserOp := orElse (Partial.perUserOp o) (perUserOp defaults);
     perUserOpWord := orElse (Partial.perUserOpWord o) (perUserOpWord defaults);
     zeroByte := orElse (Partial.zeroByte o) (zeroByte defaults);
     nonZeroByte := orElse (Partial.nonZeroByte o) (nonZeroByte defaults);
     bundleSize := orElse (Partial.bundleSize o) (bundleSize defaults);
     sigSize := orElse (Partial.sigSize o) (sigSize defaults) |}.

(** ** The worst-case canonicalizer and the packed encoding *)

(** [new Uint8Array(n).fill(255)] *)
Definition filled (n : nat) (b : byte) : list byte := repeat b n.

Definition packedUserOperationToRandomDataUserOp
           (packedUserOperation : PackedUserOperation) : PackedUserOperation :=
  {| Packed.sender := Packed.sender packedUserOperation;
     Packed.nonce :=
       0xFFFFFFFFFFFFFFFFFFFFFFFFFFFFFFFFFFFFFFFFFFFFFFFFFFFFFFFFFFFFFF;
     Packed.initCode := Packed.initCode packedUserOperation;
     Packed.callData := Packed.callData packedUserOperation;
     Packed.accountGasLimits := Hex.bytesToHex (filled 32 xff);
     Packed.preVerificationGas :=
       0xFFFFFFFFFFFFFFFFFFFFFFFFFFFFFFFFFFFFFFFFFFFFFFFFFFFFFFFFFFFFFF;
     Packed.gasFees := Hex.bytesToHex (filled 32 xff);
     Packed.paymasterAndData :=
       Hex.bytesToHex
         (filled (String.length (Packed.paymasterAndData packedUserOperation))
                 xff);
     Packed.signature :=
       Hex.bytesToHex
         (filled (String.length (Packed.signature packedUserOperation)) xff) |}.

Definition packUserOp (op : UnPackedUserOperation) : Result string :=
  let packedUserOperation := toPackedUserOperation op in
  let randomDataUserOp :=
    packedUserOperationToRandomDataUserOp packedUserOperation in
  Abi.encodeAbiParameters
    [Abi.address (Packed.sender randomDataUserOp);
     Abi.uint256 (Packed.nonce randomDataUserOp);
     Abi.bytes (Packed.initCode packedUserOperation);
     Abi.bytes (Packed.callData packedUserOperation);
     Abi.bytes32 (Packed.accountGasLimits randomDataUserOp);
     Abi.uint256 (Packed.preVerificationGas randomDataUserOp);
     Abi.bytes32 (Packed.gasFees randomDataUserOp);
     Abi.bytes (Packed.paymasterAndData randomDataUserOp);
     Abi.bytes (Packed.signature randomDataUserOp)].

(** ** The overhead model *)

(** [Math.round]: nearest integer, halves upwards. *)
Definition Math_round (x : Q) : Z := Qfloor (x + (1 # 2))%Q.

(** A store into a [Uint8Array] keeps the value modulo 256. *)
Definition ToUint8 (z : Z) : Z := z mod 256.

(** [Uint8Array.prototype.map]: the result is again a [Uint8Array]. *)
Definition Uint8Array_map (f : byte -> Z) (a : list byte) : list Z :=
  map (fun x => ToUint8 (f x)) a.

(** [.reduce((sum, x) => sum + x)] without an initial value. *)
Definition reduce_sum (a : list Z) : Result Z :=
  match a with
  | [] => throw (TypeError "Reduce of empty array with no initial value")
  | x :: rest => ok (fold_left Z.add rest x)
  end.

(** [Buffer.alloc(size, fill)] *)
Definition Buffer_alloc (size : Z) (fill : byte) : Result (list byte) :=
  if size <? 0 then throw (RangeError "The value of size is out of range")
  else ok (filled (Z.to_nat size) fill).

(** [a / b] on numbers; a zero divisor gives an infinity or a NaN, written
    [None], which the sum and [Math.round] carry to [BigInt]. *)
Definition number_div (a b : Z) : option Q :=
  if b =? 0 then None else Some (inject_Z a / inject_Z b)%Q.

Definition calcDefaultPreVerificationGas
           (userOperation : UnPackedUserOperation)
           (overheads : option Partial.t) : Result Z :=
  let ov := spread DefaultGasOverheads overheads in
  signature <-
    (if String.eqb (UserOp.signature userOperation) "0x"
     then buf <- Buffer_alloc (sigSize ov) x01 ;; ok (Hex.bytesToHex buf)
     else ok (UserOp.signature userOperation)) ;;
  (* [uop.preVerificationGas ?? 21000n] is an expression statement: it
     changes nothing. *)
  let uop := UserOp.withSignature userOperation signature in
  packedUserOperation <- packUserOp uop ;;
  packed <- Hex.toBytes packedUserOperation ;;
  let lengthInWord : Q :=
    ((inject_Z (Z.of_nat (length packed)) + 31) / 32)%Q in
  callDataCost <-
    reduce_sum
      (Uint8Array_map
         (fun x => if Byte.eqb x x00 then zeroByte ov else nonZeroByte ov)
         packed) ;;
  match number_div (fixed ov) (bundleSize ov) with
  | None =>
      throw (RangeError "The number cannot be converted to a BigInt")
  | Some perBundle =>
      ok (Math_round
            (inject_Z callDataCost + perBundle + inject_Z (perUserOp ov)
             + inject_Z (perUserOpWord ov) * lengthInWord)%Q)
  end.

(** ** Asynchronous computations and the collaborators *)

(** The calls an estimation can make to the outside. *)
Inductive Call : Type :=
| getBlock_call
| simulate_call (address functionName : string)
| getGasPrice_call (fast : bool).

(** An [async] function: the calls it awaited, in order, and its outcome. *)
Definition Promise (A : Type) : Type := (list Call * Result A)%type.

Definition resolve {A} (a : A) : Promise A := ([], ok a).
Definition reject {A} (e : Exception) : Promise A := ([], throw e).

(** A synchronous step inside an [async] body. *)
Definition sync {A} (r : Result A) : Promise A := ([], r).

(** [await] of one collaborator call and the response it gave. *)
Definition await {A} (c : Call) (response : Result A) : Promise A :=
  ([c], response).

Definition bindP {A B} (p : Promise A) (k : A -> Promise B) : Promise B :=
  match p with
  | (calls, inl e) => (calls, inl e)
  | (calls, inr a) => let (calls', r) := k a in (calls ++ calls', r)
  end.

Notation "x <~ p ;; k" := (bindP p (fun x => k))
  (at level 61, p at next level, right associativity).

Definition calls {A} (p : Promise A) : list Call := fst p.
Definition outcome {A} (p : Promise A) : Result A := snd p.

Module Chain.
Record t : Type := mk { id : Z }.
End Chain.

Module Block.
(** [baseFeePerGas: bigint | null] *)
Record t : Type := mk { baseFeePerGas : option Z }.
End Block.

Module GasPrice.
Record t : Type := mk { maxFeePerGas : Z; maxPriorityFeePerGas : Z }.
End GasPrice.

Module Tx.
Record t : Type := mk {
  to : string;
  chainId : Z;
  nonce : Z;
  gasLimit : Z;
  gasPrice : Z;
  data : string
}.
Record signature : Type := mkSignature { r : string; s : string; v : Z }.
End Tx.

(** [PublicClient<Transport, C>]: the responses the node gives.  [C] is
    [Chain.t] or [option Chain.t] ([Chain | undefined]). *)
Module PublicClient.
Record t (C : Type) : Type := mk {
  chain : C;
  getBlock : Result Block.t;
  (* getContract({address}).simulate.getL1Fee([data]) *)
  getL1Fee : string -> string -> Result Z;
  (* getContract({address}).simulate.gasEstimateL1Component([to, contractCreation, data]) *)
  gasEstimateL1Component :
    string -> string -> bool -> string -> Result (Z * Z * Z)
}.
Arguments mk {C}.
Arguments chain {C}.
Arguments getBlock {C}.
Arguments getL1Fee {C}.
Arguments gasEstimateL1Component {C}.

(** A client with a known chain, used where the chain may be unknown. *)
Definition weaken (c : t Chain.t) : t (option Chain.t) :=
  mk (Some (chain c)) (getBlock c) (getL1Fee c) (gasEstimateL1Component c).
End PublicClient.

(** The chains of [viem/chains] that the module names. *)
Module Chains.
Record t : Type := mk {
  optimism : Chain.t;
  optimismSepolia : Chain.t;
  optimismGoerli : Chain.t;
  base : Chain.t;
  baseGoerli : Chain.t;
  baseSepolia : Chain.t;
  opBNB : Chain.t;
  opBNBTestnet : Chain.t;
  arbitrum : Chain.t
}.
End Chains.

(** What the module imports and does not define: the chain table, the ABI
    item [EntryPointAbi[28]] (its selector and the encoding of its
    arguments), viem's transaction serializer and the bundler's
    [getGasPrice]. *)
Module Env.
Record t : Type := mk {
  chains : Chains.t;
  getFunctionSelector_28 : string;
  encodeAbiParameters_28 :
    list PackedUserOperation -> string -> Result string;
  serializeTransaction : Tx.t -> Tx.signature -> Result string;
  getGasPrice :
    Chain.t -> PublicClient.t Chain.t -> bool -> Result GasPrice.t
}.
End Env.

Definition Logger : Type := unit.

Definition maxUint64 : Z := 2 ^ 64 - 1.

(** [a / b] on bigints: truncation towards zero, [RangeError] on zero. *)
Definition bigint_div (a b : Z) : Result Z :=
  if b =? 0 then throw (RangeError "Division by zero")
  else ok (Z.quot a b).

Definition placeholderSignature : Tx.signature :=
  Tx.mkSignature
    "0x123451234512345123451234512345123451234512345123451234512345"
    "0x123451234512345123451234512345123451234512345123451234512345"
    28.

(** The part of a simulation result that the limit derivation reads. *)
Record ExecutionResult : Type := { preOpGas : Z; paid : Z }.

Section Estimator.

Variable env : Env.t.

Let chains := Env.chains env.

(** The calldata of [handleOps([worst-case op], entryPoint)], built the
    same way by both rollup calculators. *)
Definition handleOpsData (op : UnPackedUserOperation) (entryPoint : string)
  : Result string :=
  let packedUserOperation := toPackedUserOperation op in
  let randomDataUserOp :=
    packedUserOperationToRandomDataUserOp packedUserOperation in
  let selector := Env.getFunctionSelector_28 env in
  paramData <- Env.encodeAbiParameters_28 env [randomDataUserOp] entryPoint ;;
  ok (Hex.concat [selector; paramData]).

Definition calcOptimismPreVerificationGas
           (publicClient : PublicClient.t Chain.t)
           (op : UnPackedUserOperation) (entryPoint : string)
           (staticFee : Z) (logger : Logger) : Promise Z :=
  data <~ sync (handleOpsData op entryPoint) ;;
  latestBlock <~ await getBlock_call (PublicClient.getBlock publicClient) ;;
  match Block.baseFeePerGas latestBlock with
  | None => reject (RpcError "block does not have baseFeePerGas")
  | Some baseFeePerGas =>
      serializedTx <~
        sync (Env.serializeTransaction env
                {| Tx.to := entryPoint;
                   Tx.chainId := Chain.id (PublicClient.chain publicClient);
                   Tx.nonce := 999999;
                   Tx.gasLimit := maxUint64;
                   Tx.gasPrice := maxUint64;
                   Tx.data := data |}
                placeholderSignature) ;;
      let oracle := "0x420000000000000000000000000000000000000F" in
      l1Fee <~
        await (simulate_call oracle "getL1Fee")
              (PublicClient.getL1Fee publicClient oracle serializedTx) ;;
      gasPrice <~
        await (getGasPrice_call true)
              (Env.getGasPrice env (PublicClient.chain publicClient)
                               publicClient true) ;;
      let l2MaxFee := GasPrice.maxFeePerGas gasPrice in
      let l2PriorityFee :=
        baseFeePerGas + GasPrice.maxPriorityFeePerGas gasPrice in
      let l2price :=
        if l2MaxFee <? l2PriorityFee then l2MaxFee else l2PriorityFee in
      quotient <~ sync (bigint_div l1Fee l2price) ;;
      resolve (staticFee + quotient)
  end.

Definition calcArbitrumPreVerificationGas
           (publicClient : PublicClient.t (option Chain.t))
           (op : UnPackedUserOperation) (entryPoint : string)
           (staticFee : Z) : Promise Z :=
  data <~ sync (handleOpsData op entryPoint) ;;
  let precompileAddress := "0x00000000000000000000000000000000000000C8" in
  serializedTx <~
    sync (Env.serializeTransaction env
            {| Tx.to := entryPoint;
               Tx.chainId :=
                 match PublicClient.chain publicClient with
                 | Some c => Chain.id c
                 | None => 10
                 end;
               Tx.nonce := 999999;
               Tx.gasLimit := maxUint64;
               Tx.gasPrice := maxUint64;
               Tx.data := data |}
            placeholderSignature) ;;
  result <~
    await (simulate_call precompileAddress "gasEstimateL1Component")
          (PublicClient.gasEstimateL1Component
             publicClient precompileAddress entryPoint false serializedTx) ;;
  resolve (fst (fst result) + staticFee).

Definition isDoubleCost (chainId : Z) : bool :=
  (chainId =? 59140) || (chainId =? 59142).

Definition isOptimismStack (chainId : Z) : bool :=
  (chainId =? Chain.id (Chains.optimism chains))
  || (chainId =? Chain.id (Chains.optimismSepolia chains))
  || (chainId =? Chain.id (Chains.optimismGoerli chains))
  || (chainId =? Chain.id (Chains.base chains))
  || (chainId =? Chain.id (Chains.baseGoerli chains))
  || (chainId =? Chain.id (Chains.baseSepolia chains))
  || (chainId =? Chain.id (Chains.opBNB chains))
  || (chainId =? Chain.id (Chains.opBNBTestnet chains))
  || (chainId =? 957).

Definition isArbitrum (chainId : Z) : bool :=
  chainId =? Chain.id (Chains.arbitrum chains).

Definition calcPreVerificationGas
           (publicClient : PublicClient.t Chain.t)
           (userOperation : UnPackedUserOperation) (entryPoint : string)
           (chainId : Z) (logger : Logger)
           (overheads : option GasOverheads) : Promise Z :=
  preVerificationGas <~
    sync (calcDefaultPreVerificationGas
            userOperation (option_map asPartial overheads)) ;;
  if isDoubleCost chainId then
    resolve (preVerificationGas * 2)
  else if isOptimismStack chainId then
    calcOptimismPreVerificationGas
      publicClient userOperation entryPoint preVerificationGas logger
  else if isArbitrum chainId then
    calcArbitrumPreVerificationGas
      (PublicClient.weaken publicClient) userOperation entryPoint
      preVerificationGas
  else
    resolve preVerificationGas.

Definition isBaseFamily (chainId : Z) : bool :=
  (chainId =? Chain.id (Chains.baseGoerli chains))
  || (chainId =? Chain.id (Chains.baseSepolia chains))
  || (chainId =? Chain.id (Chains.base chains)).

Definition calcVerificationGasAndCallGasLimit
           (publicClient : PublicClient.t Chain.t)
           (userOperation : UnPackedUserOperation)
           (executionResult : ExecutionResult) (chainId : Z)
  : Promise (Z * Z) :=
  let verificationGasLimit :=
    Z.quot
      ((preOpGas executionResult
        - UserOp.preVerificationGas userOperation) * 3)
      2 in
  gasPrice <~
    (if UserOp.maxPriorityFeePerGas userOperation
        =? UserOp.maxFeePerGas userOperation
     then resolve (UserOp.maxFeePerGas userOperation)
     else
       block <~ await getBlock_call (PublicClient.getBlock publicClient) ;;
       let blockBaseFee := Block.baseFeePerGas block in
       resolve
         (if UserOp.maxFeePerGas userOperation
             <? orElse blockBaseFee 0
                + UserOp.maxPriorityFeePerGas userOperation
          then UserOp.maxFeePerGas userOperation
          else UserOp.maxPriorityFeePerGas userOperation
               + orElse blockBaseFee 0)) ;;
  quotient <~ sync (bigint_div (paid executionResult) gasPrice) ;;
  let calculatedCallGasLimit :=
    quotient - preOpGas executionResult + 21000 + 50000 in
  let callGasLimit :=
    if calculatedCallGasLimit >? 9000 then calculatedCallGasLimit
    else 9000 in
  let callGasLimit :=
    if isBaseFamily chainId then Z.quot (110 * callGasLimit) 100
    else callGasLimit in
  resolve (verificationGasLimit, callGasLimit).

End Estimator.

(** ** The error normalizer *)

Inductive ErrorClass : Type :=
| ContractFunctionExecutionError
| TransactionExecutionError
| NonceTooLowError
| FeeCapTooLowError
| InsufficientFundsError
| IntrinsicGasTooLowError
| ContractFunctionRevertedError
| EstimateGasExecutionError
| OtherClass (name : string).

Definition ErrorClass_eqb (a b : ErrorClass) : bool :=
  match a, b with
  | ContractFunctionExecutionError, ContractFunctionExecutionError
  | TransactionExecutionError, TransactionExecutionError
  | NonceTooLowError, NonceTooLowError
  | FeeCapTooLowError, FeeCapTooLowError
  | InsufficientFundsError, InsufficientFundsError
  | IntrinsicGasTooLowError, IntrinsicGasTooLowError
  | ContractFunctionRevertedError, ContractFunctionRevertedError
  | EstimateGasExecutionError, EstimateGasExecutionError => true
  | OtherClass n, OtherClass m => String.eqb n m
  | _, _ => false
  end.

(** A value of type [unknown]: not an object, or an object with the
    classes of its prototype chain and its [cause] property ([undefined]
    when it has none). *)
Inductive JsValue : Type :=
| undefined
| null
| primitive (text : string)
| object (classes : list ErrorClass) (cause : JsValue).

Definition instanceof (v : JsValue) (c : ErrorClass) : bool :=
  match v with
  | object classes _ => existsb (ErrorClass_eqb c) classes
  | _ => false
  end.

Definition cause (v : JsValue) : JsValue :=
  match v with
  | object _ c => c
  | _ => undefined
  end.

Definition parseViemError (err : JsValue) : JsValue :=
  if instanceof err ContractFunctionExecutionError
     || instanceof err TransactionExecutionError
  then
    let e := cause err in
    if instanceof e NonceTooLowError then e
    else if instanceof e FeeCapTooLowError then e
    else if instanceof e InsufficientFundsError then e
    else if instanceof e IntrinsicGasTooLowError then e
    else if instanceof e ContractFunctionRevertedError then e
    else if instanceof e EstimateGasExecutionError then e
    else undefined
  else undefined.

(** ** Definitions used to state the properties *)

(** The first steps of [calcDefaultPreVerificationGas]: the bytes whose
    cost it accounts, for the merged overheads [ov]. *)
Definition worstCaseEncoding (ov : GasOverheads)
           (userOperation : UnPackedUserOperation) : Result (list byte) :=
  signature <-
    (if String.eqb (UserOp.signature userOperation) "0x"
     then buf <- Buffer_alloc (sigSize ov) x01 ;; ok (Hex.bytesToHex buf)
     else ok (UserOp.signature userOperation)) ;;
  packedUserOperation <-
    packUserOp (UserOp.withSignature userOperation signature) ;;
  Hex.toBytes packedUserOperation.

(** The byte length of a byte sequence once right-padded to whole words. *)
Definition padded (n : nat) : nat := (n + (32 - n mod 32) mod 32)%nat.

(** The number of bytes a hex string denotes (viem's [size]). *)
Definition size (h : string) : nat := ((String.length h - 2) / 2)%nat.

(** The overhead formula in the words of the specification: every zero
    byte costs [zeroByte], every other byte [nonZeroByte]; the length in
    words is the byte length divided by 32 and rounded up; the bundle
    overhead is divided exactly; one rounding at the end. *)
Definition calldataCost_spec (ov : GasOverheads) (packed : list byte) : Z :=
  fold_right
    (fun x sum => (if Byte.eqb x x00 then zeroByte ov else nonZeroByte ov) + sum)
    0 packed.

Definition lengthInWords_spec (packed : list byte) : Z :=
  Qceiling (inject_Z (Z.of_nat (length packed)) / 32)%Q.

Definition preVerificationGas_spec (ov : GasOverheads) (packed : list byte)
  : Z :=
  Math_round
    (inject_Z (calldataCost_spec ov packed)
     + inject_Z (fixed ov) / inject_Z (bundleSize ov)
     + inject_Z (perUserOp ov)
     + inject_Z (perUserOpWord ov) * inject_Z (lengthInWords_spec packed))%Q.

(** The synthetic transaction both rollup calculators serialize. *)
Definition syntheticTx (entryPoint : string) (chainId : Z) (data : string)
  : Tx.t :=
  {| Tx.to := entryPoint;
     Tx.chainId := chainId;
     Tx.nonce := 999999;
     Tx.gasLimit := maxUint64;
     Tx.gasPrice := maxUint64;
     Tx.data := data |}.

Definition opGasPriceOracle : string :=
  "0x420000000000000000000000000000000000000F".

Definition arbPrecompile : string :=
  "0x00000000000000000000000000000000000000C8".

(** The chain table keeps the three rule sets apart: no Optimism-stack
    identifier and not the Arbitrum identifier is a double-cost one, and
    the Arbitrum identifier is not an Optimism-stack one. *)
Definition tablesDisjoint (env : Env.t) : bool :=
  let chains := Env.chains env in
  forallb (fun c => negb (isDoubleCost c))
          [Chain.id (Chains.optimism chains);
           Chain.id (Chains.optimismSepolia chains);
           Chain.id (Chains.optimismGoerli chains);
           Chain.id (Chains.base chains);
           Chain.id (Chains.baseGoerli chains);
           Chain.id (Chains.baseSepolia chains);
           Chain.id (Chains.opBNB chains);
           Chain.id (Chains.opBNBTestnet chains);
           957;
           Chain.id (Chains.arbitrum chains)]
  && negb (isOptimismStack env (Chain.id (Chains.arbitrum chains))).

(** The effective gas price and the two limits in the words of the
    specification: floor division throughout. *)
Definition gasPrice_spec (op : UnPackedUserOperation) (baseFee : option Z)
  : Z :=
  if UserOp.maxPriorityFeePerGas op =? UserOp.maxFeePerGas op
  then UserOp.maxFeePerGas op
  else Z.min (UserOp.maxFeePerGas op)
             (UserOp.maxPriorityFeePerGas op + orElse baseFee 0).

Definition verificationGasLimit_spec (op : UnPackedUserOperation)
           (ex : ExecutionResult) : Z :=
  (preOpGas ex - UserOp.preVerificationGas op) * 3 / 2.

Definition callGasLimit_spec (env : Env.t) (op : UnPackedUserOperation)
           (ex : ExecutionResult) (baseFee : option Z) (chainId : Z) : Z :=
  let callGasLimit :=
    Z.max (paid ex / gasPrice_spec op baseFee - preOpGas ex + 21000 + 50000)
          9000 in
  if isBaseFamily env chainId then 110 * callGasLimit / 100
  else callGasLimit.

(** The six causes the normalizer knows. *)
Definition knownCause (e : JsValue) : bool :=
  instanceof e NonceTooLowError
  || instanceof e FeeCapTooLowError
  || instanceof e InsufficientFundsError
  || instanceof e IntrinsicGasTooLowError
  || instanceof e ContractFunctionRevertedError
  || instanceof e EstimateGasExecutionError.

Definition isExecutionWrapper (err : JsValue) : bool :=
  instanceof err ContractFunctionExecutionError
  || instanceof err TransactionExecutionError.

(** ** Concrete inputs: the chain table of viem, stub collaborators, and
    sample operations *)

Module Example.

Definition viemChains : Chains.t :=
  {| Chains.optimism := Chain.mk 10;
     Chains.optimismSepolia := Chain.mk 11155420;
     Chains.optimismGoerli := Chain.mk 420;
     Chains.base := Chain.mk 8453;
     Chains.baseGoerli := Chain.mk 84531;
     Chains.baseSepolia := Chain.mk 84532;
     Chains.opBNB := Chain.mk 204;
     Chains.opBNBTestnet := Chain.mk 5611;
     Chains.arbitrum := Chain.mk 42161 |}.

(** Collaborators that answer with fixed values. *)
Definition env (price : GasPrice.t) : Env.t :=
  {| Env.chains := viemChains;
     Env.getFunctionSelector_28 := "0x00000000";
     Env.encodeAbiParameters_28 := fun _ _ => ok "0x";
     Env.serializeTransaction := fun tx _ => ok (Tx.data tx);
     Env.getGasPrice := fun _ _ _ => ok price |}.

Definition client (chainId : Z) (baseFee : option Z) (l1Fee : Z)
           (estimate : Z * Z * Z) : PublicClient.t Chain.t :=
  PublicClient.mk (Chain.mk chainId) (ok (Block.mk baseFee))
                  (fun _ _ => ok l1Fee) (fun _ _ _ _ => ok estimate).

Definition entryPoint : string :=
  "0x0000000071727De22E5E9d8BAf0edAc6f37da032".

(** An operation with no init code, no call data, no paymaster and no
    signature yet. *)
Definition op : UnPackedUserOperation :=
  UserOp.mk "0x1111111111111111111111111111111111111111" 7 "0x" "0x"
            100000 200000 40000 100 100 None 0 0 "0x" "0x".

Definition withFees (o : UnPackedUserOperation) (preVerificationGas
                     maxFeePerGas maxPriorityFeePerGas : Z)
  : UnPackedUserOperation :=
  UserOp.mk (UserOp.sender o) (UserOp.nonce o) (UserOp.initCode o)
            (UserOp.callData o) (UserOp.callGasLimit o)
            (UserOp.verificationGasLimit o) preVerificationGas
            maxFeePerGas maxPriorityFeePerGas (UserOp.paymaster o)
            (UserOp.paymasterVerificationGasLimit o)
            (UserOp.paymasterPostOpGasLimit o) (UserOp.paymasterData o)
            (UserOp.signature o).

(** A packed operation with a two-byte signature and no paymaster. *)
Definition packed : PackedUserOperation :=
  {| Packed.sender := "0x1111111111111111111111111111111111111111";
     Packed.nonce := 7;
     Packed.initCode := "0x";
     Packed.callData := "0xb61d27f6";
     Packed.accountGasLimits := numberToHex 32 5;
     Packed.preVerificationGas := 40000;
     Packed.gasFees := numberToHex 32 9;
     Packed.paymasterAndData := "0x";
     Packed.signature := "0xabcd" |}.

(** Call data of [n] zero bytes. *)
Definition zeros (n : nat) : string := Hex.bytesToHex (repeat x00 n).

End Example.

(** ** Definitions used by the further properties *)





(** [l] starts with [p]. *)
Definition startsWith (l p : list Call) : Prop := exists rest, l = p ++ rest.

(** The calls of the two rollup calculators, in the order of the code. *)
Definition optimismCalls : list Call :=
  [getBlock_call; simulate_call opGasPriceOracle "getL1Fee";
   getGasPrice_call true].

Definition arbitrumCalls : list Call :=
  [simulate_call arbPrecompile "gasEstimateL1Component"].



(** The responses of the collaborators are unsigned, as the ABI types
    ([uint256], [uint64]) and the fee fields of a block make them. *)
Definition unsignedResponses (env : Env.t)
           (publicClient : PublicClient.t Chain.t) : Prop :=
  (forall block baseFee,
      PublicClient.getBlock publicClient = ok block ->
      Block.baseFeePerGas block = Some baseFee -> 0 <= baseFee) /\
  (forall address data fee,
      PublicClient.getL1Fee publicClient address data = ok fee -> 0 <= fee) /\
  (forall address to creation data estimate,
      PublicClient.gasEstimateL1Component publicClient address to creation data
      = ok estimate ->
      0 <= fst (fst estimate)) /\
  (forall fast price,
      Env.getGasPrice env (PublicClient.chain publicClient) publicClient fast
      = ok price ->
      0 <= GasPrice.maxFeePerGas price /\
      0 <= GasPrice.maxPriorityFeePerGas price).

(** [{ ...overheads, zeroByte: z, nonZeroByte: n }] *)
Definition withByteCosts (o : Partial.t) (z n : Z) : Partial.t :=
  Partial.mk (Partial.fixed o) (Partial.perUserOp o) (Partial.perUserOpWord o)
             (Some z) (Some n) (Partial.bundleSize o) (Partial.sigSize o).

(** The outcome of a calculator with [d] added to what it returns. *)
Definition shifted (d : Z) (p : Promise Z) : Promise Z :=
  (calls p, match outcome p with
            | inl e => inl e
            | inr gas => inr (gas + d)
            end).

(** * Properties *)

(** ** Hex strings and bytes *)

Module HexFacts.
Import Hex.

Lemma parseDigits_cons (a b : ascii) (rest : string) :
  parseDigits (String a (String b rest)) =
  match charCodeToBase16 a, charCodeToBase16 b, parseDigits rest with
  | Some h, Some l, Some bs =>
      match Byte.of_N (16 * h + l) with
      | Some x => Some (x :: bs)
      | None => None
      end
  | _, _, _ => None
  end.
Proof. reflexivity. Qed.

Lemma parseDigits_byteToHex (b : byte) (s : string) :
  parseDigits (byteToHex b ++ s)%string =
  match parseDigits s with
  | Some bs => Some (b :: bs)
  | None => None
  end.
Proof.
  unfold byteToHex. cbn [String.append]. rewrite parseDigits_cons.
  destruct (parseDigits s); destruct b; reflexivity.
Qed.

Lemma parseDigits_digitsOf (bs : list byte) :
  parseDigits (digitsOf bs) = Some bs.
Proof.
  induction bs as [|b bs IH]; [reflexivity|].
  cbn [digitsOf]. rewrite parseDigits_byteToHex, IH. reflexivity.
Qed.

(** Reading back what [bytesToHex] wrote gives the bytes. *)
Lemma hexToBytes_bytesToHex (bs : list byte) :
  hexToBytes (bytesToHex bs) = Some bs.
Proof. apply parseDigits_digitsOf. Qed.

Lemma toBytes_bytesToHex (bs : list byte) :
  toBytes (bytesToHex bs) = ok bs.
Proof. unfold toBytes. rewrite hexToBytes_bytesToHex. reflexivity. Qed.

Lemma length_digitsOf (bs : list byte) :
  String.length (digitsOf bs) = (2 * length bs)%nat.
Proof.
  induction bs as [|b bs IH]; [reflexivity|].
  cbn [digitsOf byteToHex String.append String.length length].
  rewrite IH. lia.
Qed.

Lemma length_bytesToHex (bs : list byte) :
  String.length (bytesToHex bs) = (2 + 2 * length bs)%nat.
Proof.
  unfold bytesToHex. cbn [String.append String.length].
  rewrite length_digitsOf. reflexivity.
Qed.

Lemma parseDigits_length (n : nat) :
  forall s bs, (String.length s <= n)%nat ->
               parseDigits s = Some bs ->
               String.length s = (2 * length bs)%nat.
Proof.
  induction n as [|n IH]; intros s bs Hn Hp.
  - destruct s; [|cbn in Hn; lia]. cbn in Hp. now inversion Hp.
  - destruct s as [|a [|b rest]]; cbn [parseDigits] in Hp.
    + now inversion Hp.
    + discriminate.
    + destruct (charCodeToBase16 a); [|discriminate].
      destruct (charCodeToBase16 b); [|discriminate].
      destruct (parseDigits rest) as [bs'|] eqn:E; [|discriminate].
      destruct (Byte.of_N _); [|discriminate].
      inversion Hp; subst. cbn [String.length length] in *.
      rewrite (IH rest bs'); [lia | lia | assumption].
Qed.

(** The [.length] of a hex string that denotes [n] bytes is [2 + 2 n]. *)
Lemma length_of_hex (h : string) (bs : list byte) :
  hexToBytes h = Some bs -> String.length h = (2 + 2 * length bs)%nat.
Proof.
  unfold hexToBytes.
  destruct h as [|c0 [|c1 d]]; try discriminate.
  - destruct c0 as [[] [] [] [] [] [] [] []]; discriminate.
  - intros H.
    assert (Hd : parseDigits d = Some bs).
    { destruct c0 as [[] [] [] [] [] [] [] []]; try discriminate;
        destruct c1 as [[] [] [] [] [] [] [] []]; try discriminate;
        exact H. }
    cbn [String.length].
    rewrite (parseDigits_length (String.length d) d bs); [lia | lia | exact Hd].
Qed.

End HexFacts.

(** ** The ABI encoding: sizes *)

Module AbiFacts.
Import Abi.

Lemma length_bigEndian (n : nat) : forall z, length (bigEndian n z) = n.
Proof.
  induction n as [|n IH]; intros z; [reflexivity|].
  cbn [bigEndian]. rewrite length_app, IH. cbn. lia.
Qed.

Lemma padded_mod (n : nat) : (padded n mod 32 = 0)%nat.
Proof.
  unfold padded.
  pose proof (Nat.mod_upper_bound n 32 ltac:(lia)) as Hlt.
  pose proof (Nat.div_mod_eq n 32) as Hn.
  destruct (Nat.eq_dec (n mod 32) 0) as [E|E].
  - rewrite E. replace ((32 - 0) mod 32)%nat with 0%nat by reflexivity.
    rewrite Nat.add_0_r. exact E.
  - rewrite (Nat.mod_small (32 - n mod 32) 32) by lia.
    replace (n + (32 - n mod 32))%nat with ((n / 32 + 1) * 32)%nat by lia.
    apply Nat.Div0.mod_mul.
Qed.

Lemma padded_ge (n : nat) : (n <= padded n)%nat.
Proof. unfold padded. lia. Qed.

Lemma padded_lt (n : nat) : (padded n < n + 32)%nat.
Proof.
  unfold padded.
  pose proof (Nat.mod_upper_bound (32 - n mod 32) 32 ltac:(lia)). lia.
Qed.

(** Padding to whole words keeps the order of lengths. *)
Lemma padded_mono (n m : nat) : (n <= m -> padded n <= padded m)%nat.
Proof.
  intros Hnm.
  pose proof (padded_mod n) as Hn. pose proof (padded_mod m) as Hm.
  pose proof (padded_lt n). pose proof (padded_ge m).
  apply Nat.Div0.div_exact in Hn, Hm.
  destruct (Nat.le_gt_cases (padded n) (padded m)) as [|Hgt]; [assumption|].
  exfalso.
  assert (padded m / 32 < padded n / 32)%nat by nia.
  nia.
Qed.

Lemma length_padRight (bs : list byte) :
  length (padRight bs) = padded (length bs).
Proof. unfold padRight, padded. now rewrite length_app, repeat_length. Qed.

Lemma length_splitParams (st : nat) (ps : list PreparedParam) :
  forall heads tails,
    (length (fst (splitParams st ps heads tails))
     + length (snd (splitParams st ps heads tails))
     = length heads + length tails + totalSize ps)%nat.
Proof.
  induction ps as [|[e|e] ps IH]; intros heads tails; cbn [splitParams totalSize fold_right].
  - cbn. lia.
  - rewrite IH. rewrite length_app. cbn [headSize tailSize]. fold (totalSize ps). lia.
  - rewrite IH. rewrite !length_app, length_bigEndian.
    cbn [headSize tailSize]. fold (totalSize ps). lia.
Qed.

Lemma length_encodeParams (ps : list PreparedParam) :
  length (encodeParams ps) = totalSize ps.
Proof.
  unfold encodeParams.
  pose proof (length_splitParams (staticSize ps) ps [] []) as H.
  destruct (splitParams (staticSize ps) ps [] []) as [heads tails].
  cbn [fst snd length] in H. rewrite length_app. lia.
Qed.

Lemma encodeBytes_bytesToHex (bs : list byte) :
  encodeBytes (Hex.bytesToHex bs) =
  ok (bigEndian 32 (Z.of_nat (length bs)) ++ padRight bs).
Proof. unfold encodeBytes. now rewrite HexFacts.hexToBytes_bytesToHex. Qed.

End AbiFacts.

(** ** The packed encoding of an operation *)

Lemma filled_length (n : nat) (b : byte) : length (filled n b) = n.
Proof. apply repeat_length. Qed.

(** What [packUserOp] returns when it returns: the parameters it encoded. *)
Lemma packUserOp_ok (op : UnPackedUserOperation) (h : string) :
  packUserOp op = ok h ->
  exists sd ic cd,
    Hex.hexToBytes (UserOp.sender op) = Some sd /\ length sd = 20%nat /\
    Hex.hexToBytes (UserOp.initCode op) = Some ic /\
    Hex.hexToBytes (UserOp.callData op) = Some cd /\
    h = Hex.bytesToHex
          (Abi.encodeParams
             [Abi.Static (repeat x00 12 ++ sd);
              Abi.Static (Abi.bigEndian 32 (2 ^ 248 - 1));
              Abi.Dynamic (Abi.bigEndian 32 (Z.of_nat (length ic))
                           ++ Abi.padRight ic);
              Abi.Dynamic (Abi.bigEndian 32 (Z.of_nat (length cd))
                           ++ Abi.padRight cd);
              Abi.Static (filled 32 xff);
              Abi.Static (Abi.bigEndian 32 (2 ^ 248 - 1));
              Abi.Static (filled 32 xff);
              Abi.Dynamic
                (let n := String.length
                            (Packed.paymasterAndData (toPackedUserOperation op)) in
                 Abi.bigEndian 32 (Z.of_nat (length (filled n xff)))
                 ++ Abi.padRight (filled n xff));
              Abi.Dynamic
                (let n := String.length (UserOp.signature op) in
                 Abi.bigEndian 32 (Z.of_nat (length (filled n xff)))
                 ++ Abi.padRight (filled n xff))]).
Proof.
  unfold packUserOp, Abi.encodeAbiParameters.
  cbn [Abi.prepareParams Abi.prepareParam packedUserOperationToRandomDataUserOp
       toPackedUserOperation Packed.sender Packed.nonce Packed.initCode
       Packed.callData Packed.accountGasLimits Packed.preVerificationGas
       Packed.gasFees Packed.paymasterAndData Packed.signature].
  rewrite !AbiFacts.encodeBytes_bytesToHex.
  unfold Abi.encodeAddress, Abi.encodeBytes, Abi.encodeBytes32.
  rewrite !HexFacts.hexToBytes_bytesToHex.
  destruct (Hex.hexToBytes (UserOp.sender op)) as [sd|]; [|discriminate].
  destruct (length sd =? 20)%nat eqn:Hsd; [|discriminate].
  apply Nat.eqb_eq in Hsd.
  destruct (Hex.hexToBytes (UserOp.initCode op)) as [ic|]; [|discriminate].
  destruct (Hex.hexToBytes (UserOp.callData op)) as [cd|]; [|discriminate].
  change (Abi.encodeNumber _) with (ok (A := list byte) (Abi.bigEndian 32 (2 ^ 248 - 1))).
  cbn [bindR ok].
  intros H. inversion H; subst h; clear H.
  exists sd, ic, cd. repeat split; try assumption; reflexivity.
Qed.

(** [packUserOp] returns for every operation whose sender is an address and
    whose init code and call data are hex strings. *)
Lemma packUserOp_complete (op : UnPackedUserOperation) (sd ic cd : list byte) :
  Hex.hexToBytes (UserOp.sender op) = Some sd -> length sd = 20%nat ->
  Hex.hexToBytes (UserOp.initCode op) = Some ic ->
  Hex.hexToBytes (UserOp.callData op) = Some cd ->
  exists h, packUserOp op = ok h.
Proof.
  intros Hs Hl Hi Hc.
  unfold packUserOp, Abi.encodeAbiParameters.
  cbn [Abi.prepareParams Abi.prepareParam packedUserOperationToRandomDataUserOp
       toPackedUserOperation Packed.sender Packed.nonce Packed.initCode
       Packed.callData Packed.accountGasLimits Packed.preVerificationGas
       Packed.gasFees Packed.paymasterAndData Packed.signature].
  rewrite !AbiFacts.encodeBytes_bytesToHex.
  unfold Abi.encodeAddress, Abi.encodeBytes, Abi.encodeBytes32.
  rewrite !HexFacts.hexToBytes_bytesToHex, Hs, Hi, Hc.
  apply Nat.eqb_eq in Hl. rewrite Hl.
  change (Abi.encodeNumber _) with (ok (A := list byte) (Abi.bigEndian 32 (2 ^ 248 - 1))).
  cbn [bindR ok]. eexists. reflexivity.
Qed.

(** The size of the packed encoding: thirteen words of heads and length
    words, and the four byte fields padded to whole words.  The last two
    are filled to the [.length] of the hex strings they replace. *)
Lemma packUserOp_size (op : UnPackedUserOperation) (h : string) :
  packUserOp op = ok h ->
  exists ic cd packed,
    Hex.hexToBytes (UserOp.initCode op) = Some ic /\
    Hex.hexToBytes (UserOp.callData op) = Some cd /\
    Hex.toBytes h = ok packed /\
    length packed =
    (416 + padded (length ic) + padded (length cd)
     + padded (String.length
                 (Packed.paymasterAndData (toPackedUserOperation op)))
     + padded (String.length (UserOp.signature op)))%nat.
Proof.
  intros H.
  destruct (packUserOp_ok op h H) as (sd & ic & cd & Hs & Hl & Hi & Hc & ->).
  exists ic, cd. eexists. repeat split; try assumption.
  - apply HexFacts.toBytes_bytesToHex.
  - rewrite AbiFacts.length_encodeParams.
    cbn [Abi.totalSize fold_right Abi.headSize Abi.tailSize].
    rewrite !length_app, !AbiFacts.length_bigEndian, !AbiFacts.length_padRight,
      !filled_length, repeat_length, Hl.
    lia.
Qed.

Lemma packUserOp_size_mod (op : UnPackedUserOperation) (h : string) :
  packUserOp op = ok h ->
  exists packed k,
    Hex.toBytes h = ok packed /\ length packed = (32 * k)%nat /\ (13 <= k)%nat.
Proof.
  intros H.
  destruct (packUserOp_size op h H) as (ic & cd & packed & _ & _ & Ht & Hlen).
  exists packed.
  set (a := padded (length ic)) in *. set (b := padded (length cd)) in *.
  set (c := padded (String.length _)) in *.
  set (d := padded (String.length (UserOp.signature op))) in *.
  pose proof (AbiFacts.padded_mod (length ic)) as Ha.
  pose proof (AbiFacts.padded_mod (length cd)) as Hb.
  pose proof (AbiFacts.padded_mod
                (String.length
                   (Packed.paymasterAndData (toPackedUserOperation op)))) as Hc.
  pose proof (AbiFacts.padded_mod (String.length (UserOp.signature op))) as Hd.
  fold a in Ha. fold b in Hb. fold c in Hc. fold d in Hd.
  apply Nat.Div0.div_exact in Ha, Hb, Hc, Hd.
  exists (13 + a / 32 + b / 32 + c / 32 + d / 32)%nat.
  repeat split; [assumption | lia | lia].
Qed.

(** ** The overhead model *)

(** [calcDefaultPreVerificationGas] is the cost accounting applied to the
    worst-case encoding. *)
Lemma calcDefaultPreVerificationGas_eq
      (op : UnPackedUserOperation) (overheads : option Partial.t) :
  calcDefaultPreVerificationGas op overheads =
  let ov := spread DefaultGasOverheads overheads in
  packed <- worstCaseEncoding ov op ;;
  callDataCost <-
    reduce_sum
      (Uint8Array_map
         (fun x => if Byte.eqb x x00 then zeroByte ov else nonZeroByte ov)
         packed) ;;
  match number_div (fixed ov) (bundleSize ov) with
  | None => throw (RangeError "The number cannot be converted to a BigInt")
  | Some perBundle =>
      ok (Math_round
            (inject_Z callDataCost + perBundle + inject_Z (perUserOp ov)
             + inject_Z (perUserOpWord ov)
               * ((inject_Z (Z.of_nat (length packed)) + 31) / 32))%Q)
  end.
Proof.
  unfold calcDefaultPreVerificationGas, worstCaseEncoding. cbv zeta.
  destruct (if String.eqb (UserOp.signature op) "0x" then _ else _)
    as [e|sig]; [reflexivity|].
  cbn [bindR].
  destruct (packUserOp _) as [e|h]; [reflexivity|].
  cbn [bindR]. reflexivity.
Qed.





Lemma inject_Z_words (k : Z) : (inject_Z (32 * k) / 32 == inject_Z k)%Q.
Proof. rewrite inject_Z_mult. field. Qed.

Lemma lengthInWords_spec_words (packed : list byte) (k : nat) :
  length packed = (32 * k)%nat -> lengthInWords_spec packed = Z.of_nat k.
Proof.
  intros H. unfold lengthInWords_spec. rewrite H.
  replace (Z.of_nat (32 * k)) with (32 * Z.of_nat k) by lia.
  rewrite (Qceiling_comp _ _ (inject_Z_words (Z.of_nat k))).
  apply Qceiling_Z.
Qed.





(** C1 (defect of the code).  The specification computes the length in
    words as the byte length divided by 32 and rounded up; the code
    evaluates [(packed.length + 31) / 32] on numbers, which is not rounded.
    On the sample operation, under the default overheads, the worst-case
    encoding has 608 bytes, that is 19 words; the code returns 45292 where
    the formula of the specification gives 45288. *)
Theorem calcDefaultPreVerificationGas_counts_a_fraction_of_a_word :
  exists packed,
    worstCaseEncoding DefaultGasOverheads Example.op = ok packed /\
    length packed = 608%nat /\
    lengthInWords_spec packed = 19 /\
    preVerificationGas_spec DefaultGasOverheads packed = 45288 /\
    calcDefaultPreVerificationGas Example.op None = ok 45292.
Proof.
  eexists. split; [vm_compute; reflexivity|].
  repeat split; vm_compute; reflexivity.
Qed.

(** Two more places where the code leaves the formula when the overheads
    are overridden: a byte cost is stored into a [Uint8Array] and wraps
    modulo 256, and a bundle size of zero makes the sum infinite, which
    [BigInt] rejects. *)
Lemma calcDefaultPreVerificationGas_byte_cost_wraps :
  calcDefaultPreVerificationGas
    Example.op (Some (Partial.mk None None None None (Some 272) None None))
  = calcDefaultPreVerificationGas Example.op None.
Proof. vm_compute. reflexivity. Qed.

Lemma calcDefaultPreVerificationGas_empty_bundle :
  calcDefaultPreVerificationGas
    Example.op (Some (Partial.mk None None None None None (Some 0) None))
  = throw (RangeError "The number cannot be converted to a BigInt").
Proof. vm_compute. reflexivity. Qed.

(** ** The worst-case canonicalizer *)

(** What the canonicalizer keeps and what it fills with words of [0xFF]. *)
Lemma randomData_kept_fields (p : PackedUserOperation) :
  let r := packedUserOperationToRandomDataUserOp p in
  Packed.sender r = Packed.sender p /\
  Packed.initCode r = Packed.initCode p /\
  Packed.callData r = Packed.callData p /\
  Hex.hexToBytes (Packed.accountGasLimits r) = Some (repeat xff 32) /\
  Hex.hexToBytes (Packed.gasFees r) = Some (repeat xff 32).
Proof. repeat split; vm_compute; reflexivity. Qed.

(** The two byte fields are filled to the [.length] of the hex string they
    replace: a field of [n] bytes becomes [2 + 2 n] bytes of [0xFF]. *)
Lemma randomData_byte_fields (p : PackedUserOperation) (pm sg : list byte) :
  Hex.hexToBytes (Packed.paymasterAndData p) = Some pm ->
  Hex.hexToBytes (Packed.signature p) = Some sg ->
  let r := packedUserOperationToRandomDataUserOp p in
  Hex.hexToBytes (Packed.paymasterAndData r)
  = Some (repeat xff (2 + 2 * length pm)) /\
  Hex.hexToBytes (Packed.signature r)
  = Some (repeat xff (2 + 2 * length sg)).
Proof.
  intros Hpm Hsg. cbn zeta.
  unfold packedUserOperationToRandomDataUserOp.
  cbn [Packed.paymasterAndData Packed.signature].
  rewrite !HexFacts.hexToBytes_bytesToHex.
  rewrite (HexFacts.length_of_hex _ _ Hpm), (HexFacts.length_of_hex _ _ Hsg).
  split; reflexivity.
Qed.

(** The integer written into [nonce] and [preVerificationGas] has 62 hex
    digits: 248 bits, so that its word starts with a zero byte. *)
Lemma randomData_integer_fields (p : PackedUserOperation) :
  let r := packedUserOperationToRandomDataUserOp p in
  Packed.nonce r = 2 ^ 248 - 1 /\
  Packed.preVerificationGas r = 2 ^ 248 - 1 /\
  Abi.encodeNumber (2 ^ 248 - 1) = ok (x00 :: repeat xff 31).
Proof. repeat split; vm_compute; reflexivity. Qed.

(** C2 (defect of the code).  The canonicalizer is meant to overwrite the
    varying fields with [0xFF] bytes of the length of the real field.  On a
    packed operation with an empty paymaster field and a two-byte
    signature it keeps sender, init code and call data and fills both
    gas-limit words with 32 bytes of [0xFF], but the paymaster field
    becomes two bytes, the signature six, and the words of nonce and
    [preVerificationGas] start with a zero byte. *)
Theorem packedUserOperationToRandomDataUserOp_lengths_differ :
  let p := Example.packed in
  let r := packedUserOperationToRandomDataUserOp p in
  Packed.sender r = Packed.sender p /\
  Packed.initCode r = Packed.initCode p /\
  Packed.callData r = Packed.callData p /\
  Hex.hexToBytes (Packed.accountGasLimits r) = Some (repeat xff 32) /\
  Hex.hexToBytes (Packed.gasFees r) = Some (repeat xff 32) /\
  Abi.encodeNumber (Packed.nonce r) = ok (x00 :: repeat xff 31) /\
  Abi.encodeNumber (Packed.preVerificationGas r) = ok (x00 :: repeat xff 31) /\
  Hex.hexToBytes (Packed.paymasterAndData p) = Some [] /\
  Hex.hexToBytes (Packed.paymasterAndData r) = Some (repeat xff 2) /\
  Hex.hexToBytes (Packed.signature p) = Some [xab; xcd] /\
  Hex.hexToBytes (Packed.signature r) = Some (repeat xff 6).
Proof. repeat split; vm_compute; reflexivity. Qed.

(** ** The chain dispatcher *)

Lemma bindP_sync_ok {A B} (a : A) (k : A -> Promise B) :
  bindP (sync (ok a)) k = k a.
Proof. unfold bindP, sync, ok. destruct (k a). reflexivity. Qed.

Lemma tablesDisjoint_optimism (env : Env.t) (chainId : Z) :
  tablesDisjoint env = true ->
  isOptimismStack env chainId = true -> isDoubleCost chainId = false.
Proof.
  unfold tablesDisjoint, isOptimismStack. cbn [forallb].
  rewrite !andb_true_iff, !orb_true_iff, !negb_true_iff, !Z.eqb_eq.
  intros H Hc. decompose [and] H. decompose [or] Hc; subst; assumption.
Qed.

Lemma tablesDisjoint_arbitrum (env : Env.t) (chainId : Z) :
  tablesDisjoint env = true ->
  isArbitrum env chainId = true ->
  isDoubleCost chainId = false /\ isOptimismStack env chainId = false.
Proof.
  unfold tablesDisjoint, isArbitrum. cbn [forallb].
  rewrite !andb_true_iff, !negb_true_iff, !Z.eqb_eq.
  intros H ->. decompose [and] H. split; assumption.
Qed.

(** C3.  With [baseline] the result of the overhead model, the dispatcher
    takes exactly one of four branches: on a double-cost chain it returns
    twice the baseline and calls no collaborator; on an Optimism-stack
    chain it is the Optimism calculator run with [staticFee = baseline]; on
    Arbitrum it is the Arbitrum calculator run with [staticFee = baseline];
    on every other chain it returns the baseline and calls no
    collaborator. *)
Theorem calcPreVerificationGas_dispatch
        (env : Env.t) (publicClient : PublicClient.t Chain.t)
        (userOperation : UnPackedUserOperation) (entryPoint : string)
        (chainId : Z) (logger : Logger) (overheads : option GasOverheads)
        (baseline : Z) :
  tablesDisjoint env = true ->
  calcDefaultPreVerificationGas
    userOperation (option_map asPartial overheads) = ok baseline ->
  let result :=
    calcPreVerificationGas
      env publicClient userOperation entryPoint chainId logger overheads in
  (isDoubleCost chainId = true -> result = ([], ok (baseline * 2))) /\
  (isOptimismStack env chainId = true ->
   result = calcOptimismPreVerificationGas
              env publicClient userOperation entryPoint baseline logger) /\
  (isArbitrum env chainId = true ->
   result = calcArbitrumPreVerificationGas
              env (PublicClient.weaken publicClient) userOperation entryPoint
              baseline) /\
  (isDoubleCost chainId = false -> isOptimismStack env chainId = false ->
   isArbitrum env chainId = false -> result = ([], ok baseline)) /\
  (isDoubleCost chainId && isOptimismStack env chainId = false) /\
  (isDoubleCost chainId && isArbitrum env chainId = false) /\
  (isOptimismStack env chainId && isArbitrum env chainId = false).
Proof.
  intros Hd Hb result. subst result.
  unfold calcPreVerificationGas. rewrite Hb, bindP_sync_ok.
  repeat split.
  - intros ->. reflexivity.
  - intros Ho. rewrite (tablesDisjoint_optimism env chainId Hd Ho), Ho.
    reflexivity.
  - intros Ha.
    destruct (tablesDisjoint_arbitrum env chainId Hd Ha) as [-> ->].
    rewrite Ha. reflexivity.
  - intros -> -> ->. reflexivity.
  - destruct (isOptimismStack env chainId) eqn:Ho.
    + rewrite (tablesDisjoint_optimism env chainId Hd Ho). reflexivity.
    + apply andb_false_r.
  - destruct (isArbitrum env chainId) eqn:Ha.
    + destruct (tablesDisjoint_arbitrum env chainId Hd Ha) as [-> _].
      reflexivity.
    + apply andb_false_r.
  - destruct (isArbitrum env chainId) eqn:Ha.
    + destruct (tablesDisjoint_arbitrum env chainId Hd Ha) as [_ ->].
      reflexivity.
    + apply andb_false_r.
Qed.

(** C3 at viem's chain table and the sample operation, on a double-cost
    chain (59140), Optimism (10), Arbitrum (42161) and mainnet (1). *)
Lemma calcPreVerificationGas_dispatch_witness :
  let env := Example.env (GasPrice.mk 100 3) in
  let client := Example.client 10 (Some 50) 100000 (77, 1, 2) in
  calcPreVerificationGas env client Example.op Example.entryPoint 59140 tt None
  = ([], ok 90584) /\
  calcPreVerificationGas env client Example.op Example.entryPoint 10 tt None
  = calcOptimismPreVerificationGas
      env client Example.op Example.entryPoint 45292 tt /\
  calcPreVerificationGas env client Example.op Example.entryPoint 42161 tt None
  = calcArbitrumPreVerificationGas
      env (PublicClient.weaken client) Example.op Example.entryPoint 45292 /\
  calcPreVerificationGas env client Example.op Example.entryPoint 1 tt None
  = ([], ok 45292).
Proof.
  intros env client.
  assert (Hd : tablesDisjoint env = true) by reflexivity.
  assert (Hb : calcDefaultPreVerificationGas
                 Example.op (option_map asPartial None) = ok 45292)
    by (vm_compute; reflexivity).
  split; [|split; [|split]].
  - apply (calcPreVerificationGas_dispatch
             env client Example.op Example.entryPoint 59140 tt None 45292 Hd Hb).
    reflexivity.
  - apply (calcPreVerificationGas_dispatch
             env client Example.op Example.entryPoint 10 tt None 45292 Hd Hb).
    reflexivity.
  - apply (calcPreVerificationGas_dispatch
             env client Example.op Example.entryPoint 42161 tt None 45292 Hd Hb).
    reflexivity.
  - apply (calcPreVerificationGas_dispatch
             env client Example.op Example.entryPoint 1 tt None 45292 Hd Hb);
      reflexivity.
Defined.

(** ** The Optimism calculator *)

Section OptimismRun.

Variables (env : Env.t) (publicClient : PublicClient.t Chain.t)
          (op : UnPackedUserOperation) (entryPoint : string)
          (staticFee : Z) (logger : Logger).

(** Before anything else the calculator builds the calldata and reads the
    latest block. *)
Lemma calcOptimismPreVerificationGas_no_base_fee (data : string) :
  handleOpsData env op entryPoint = ok data ->
  PublicClient.getBlock publicClient = ok (Block.mk None) ->
  calcOptimismPreVerificationGas
    env publicClient op entryPoint staticFee logger
  = ([getBlock_call], throw (RpcError "block does not have baseFeePerGas")).
Proof.
  intros Hd Hb. unfold calcOptimismPreVerificationGas.
  rewrite Hd, bindP_sync_ok. unfold await. rewrite Hb. reflexivity.
Qed.

Variables (data serializedTx : string) (l1Fee maxFee baseFee priorityFee : Z).

Hypothesis Hdata : handleOpsData env op entryPoint = ok data.
Hypothesis Hblock :
  PublicClient.getBlock publicClient = ok (Block.mk (Some baseFee)).
Hypothesis Htx :
  Env.serializeTransaction
    env
    (syntheticTx entryPoint (Chain.id (PublicClient.chain publicClient)) data)
    placeholderSignature
  = ok serializedTx.
Hypothesis Hfee :
  PublicClient.getL1Fee publicClient opGasPriceOracle serializedTx
  = ok l1Fee.
Hypothesis Hprice :
  Env.getGasPrice env (PublicClient.chain publicClient) publicClient true
  = ok (GasPrice.mk maxFee priorityFee).

(** With these responses the calculator makes its three calls and ends
    in the division of the fee by the price. *)
Lemma calcOptimismPreVerificationGas_run :
  calcOptimismPreVerificationGas
    env publicClient op entryPoint staticFee logger
  = ([getBlock_call; simulate_call opGasPriceOracle "getL1Fee";
      getGasPrice_call true],
     quotient <- bigint_div l1Fee (Z.min maxFee (baseFee + priorityFee)) ;;
     ok (staticFee + quotient)).
Proof.
  unfold calcOptimismPreVerificationGas.
  rewrite Hdata, bindP_sync_ok. unfold await. rewrite Hblock.
  cbn [bindP ok Block.baseFeePerGas].
  unfold syntheticTx in Htx. rewrite Htx, bindP_sync_ok.
  unfold opGasPriceOracle in Hfee. rewrite Hfee. cbn [bindP ok].
  rewrite Hprice. cbn [bindP ok GasPrice.maxFeePerGas
                       GasPrice.maxPriorityFeePerGas].
  replace (if maxFee <? baseFee + priorityFee then maxFee
           else baseFee + priorityFee)
    with (Z.min maxFee (baseFee + priorityFee))
    by (destruct (Z.ltb_spec maxFee (baseFee + priorityFee)); lia).
  unfold sync, resolve, bindP.
  destruct (bigint_div l1Fee (Z.min maxFee (baseFee + priorityFee)));
    reflexivity.
Qed.

End OptimismRun.

Lemma bigint_div_floor (a b : Z) :
  0 <= a -> 0 < b -> bigint_div a b = ok (a / b).
Proof.
  intros Ha Hb. unfold bigint_div.
  destruct (Z.eqb_spec b 0); [lia|].
  rewrite Z.quot_div_nonneg by lia. reflexivity.
Qed.

(** C4.  With an oracle fee [F], a price sample [(A, C)] and a block base
    fee [B], all unsigned and with a non-zero price, the Optimism
    calculator returns [staticFee + F / min A (B + C)] with floor division:
    [staticFee + F / (B + C)] when [A >= B + C] and [staticFee + F / A]
    when [A < B + C]. *)
Theorem calcOptimismPreVerificationGas_result
        (env : Env.t) (publicClient : PublicClient.t Chain.t)
        (op : UnPackedUserOperation) (entryPoint : string)
        (staticFee : Z) (logger : Logger)
        (data serializedTx : string) (F A B C : Z) :
  handleOpsData env op entryPoint = ok data ->
  PublicClient.getBlock publicClient = ok (Block.mk (Some B)) ->
  Env.serializeTransaction
    env
    (syntheticTx entryPoint (Chain.id (PublicClient.chain publicClient)) data)
    placeholderSignature
  = ok serializedTx ->
  PublicClient.getL1Fee publicClient opGasPriceOracle serializedTx = ok F ->
  Env.getGasPrice env (PublicClient.chain publicClient) publicClient true
  = ok (GasPrice.mk A C) ->
  0 <= F -> 0 < Z.min A (B + C) ->
  let result :=
    outcome (calcOptimismPreVerificationGas
               env publicClient op entryPoint staticFee logger) in
  result = ok (staticFee + F / Z.min A (B + C)) /\
  (A >= B + C -> result = ok (staticFee + F / (B + C))) /\
  (A < B + C -> result = ok (staticFee + F / A)).
Proof.
  intros Hd Hb Ht Hf Hp HF Hpos result. subst result.
  rewrite (calcOptimismPreVerificationGas_run
             env publicClient op entryPoint staticFee logger
             data serializedTx F A B C Hd Hb Ht Hf Hp).
  cbn [outcome snd]. rewrite (bigint_div_floor _ _ HF Hpos). cbn [bindR ok].
  repeat split.
  - intros Hge. rewrite Z.min_r by lia. reflexivity.
  - intros Hlt. rewrite Z.min_l by lia. reflexivity.
Qed.

(** C4 at [F = 100000], [A = 100], [B = 50], [C = 3] (the price is
    [B + C]) and at [A = 40] (the price is [A]). *)
Lemma calcOptimismPreVerificationGas_result_witness :
  outcome (calcOptimismPreVerificationGas
             (Example.env (GasPrice.mk 100 3))
             (Example.client 10 (Some 50) 100000 (0, 0, 0))
             Example.op Example.entryPoint 45292 tt)
  = ok (45292 + 100000 / (50 + 3)) /\
  outcome (calcOptimismPreVerificationGas
             (Example.env (GasPrice.mk 40 3))
             (Example.client 10 (Some 50) 100000 (0, 0, 0))
             Example.op Example.entryPoint 45292 tt)
  = ok (45292 + 100000 / 40).
Proof.
  split.
  - apply (calcOptimismPreVerificationGas_result
             (Example.env (GasPrice.mk 100 3))
             (Example.client 10 (Some 50) 100000 (0, 0, 0))
             Example.op Example.entryPoint 45292 tt
             "0x00000000" "0x00000000" 100000 100 50 3);
      try reflexivity; lia.
  - apply (calcOptimismPreVerificationGas_result
             (Example.env (GasPrice.mk 40 3))
             (Example.client 10 (Some 50) 100000 (0, 0, 0))
             Example.op Example.entryPoint 45292 tt
             "0x00000000" "0x00000000" 100000 40 50 3);
      try reflexivity; lia.
Defined.

(** C9.  When the latest block has no base fee, the Optimism calculator
    throws the module's own [RpcError] named "block does not have
    baseFeePerGas"; the block read is the only call it has made, and the
    exception is not the rejection of a collaborator call. *)
Theorem calcOptimismPreVerificationGas_unsupported_chain
        (env : Env.t) (publicClient : PublicClient.t Chain.t)
        (op : UnPackedUserOperation) (entryPoint : string)
        (staticFee : Z) (logger : Logger) (data : string) :
  handleOpsData env op entryPoint = ok data ->
  PublicClient.getBlock publicClient = ok (Block.mk None) ->
  let result :=
    calcOptimismPreVerificationGas
      env publicClient op entryPoint staticFee logger in
  outcome result = throw (RpcError "block does not have baseFeePerGas") /\
  calls result = [getBlock_call] /\
  (forall reason, outcome result <> throw (Rejected reason)).
Proof.
  intros Hd Hb result. subst result.
  rewrite (calcOptimismPreVerificationGas_no_base_fee
             env publicClient op entryPoint staticFee logger data Hd Hb).
  repeat split. intros reason. discriminate.
Qed.

Lemma calcOptimismPreVerificationGas_unsupported_chain_witness :
  let result :=
    calcOptimismPreVerificationGas
      (Example.env (GasPrice.mk 100 3))
      (Example.client 10 None 100000 (0, 0, 0))
      Example.op Example.entryPoint 45292 tt in
  outcome result = throw (RpcError "block does not have baseFeePerGas") /\
  calls result = [getBlock_call] /\
  (forall reason, outcome result <> throw (Rejected reason)).
Proof.
  apply (calcOptimismPreVerificationGas_unsupported_chain
           (Example.env (GasPrice.mk 100 3))
           (Example.client 10 None 100000 (0, 0, 0))
           Example.op Example.entryPoint 45292 tt "0x00000000");
    reflexivity.
Defined.

(** ** The Arbitrum calculator *)

(** C5.  When the precompile answers [(X, baseFee, l1BaseFeeEstimate)], the
    Arbitrum calculator returns [staticFee + X], whatever the second and
    third components are, after this one call. *)
Theorem calcArbitrumPreVerificationGas_result
        (env : Env.t) (publicClient : PublicClient.t (option Chain.t))
        (op : UnPackedUserOperation) (entryPoint : string) (staticFee : Z)
        (data serializedTx : string) (X baseFee l1BaseFeeEstimate : Z) :
  handleOpsData env op entryPoint = ok data ->
  Env.serializeTransaction
    env
    (syntheticTx entryPoint
                 (match PublicClient.chain publicClient with
                  | Some c => Chain.id c
                  | None => 10
                  end)
                 data)
    placeholderSignature
  = ok serializedTx ->
  PublicClient.gasEstimateL1Component
    publicClient arbPrecompile entryPoint false serializedTx
  = ok (X, baseFee, l1BaseFeeEstimate) ->
  calcArbitrumPreVerificationGas env publicClient op entryPoint staticFee
  = ([simulate_call arbPrecompile "gasEstimateL1Component"],
     ok (staticFee + X)).
Proof.
  intros Hd Ht Hr. unfold calcArbitrumPreVerificationGas.
  rewrite Hd, bindP_sync_ok.
  unfold syntheticTx in Ht. rewrite Ht, bindP_sync_ok.
  unfold await. unfold arbPrecompile in Hr. rewrite Hr.
  cbn [bindP ok resolve fst app]. rewrite Z.add_comm. reflexivity.
Qed.

(** C5 at [X = 77], with two answers that differ in the other components. *)
Lemma calcArbitrumPreVerificationGas_result_witness :
  outcome (calcArbitrumPreVerificationGas
             (Example.env (GasPrice.mk 100 3))
             (PublicClient.weaken (Example.client 42161 None 0 (77, 1, 2)))
             Example.op Example.entryPoint 45292)
  = ok (45292 + 77) /\
  outcome (calcArbitrumPreVerificationGas
             (Example.env (GasPrice.mk 100 3))
             (PublicClient.weaken (Example.client 42161 None 0 (77, 500, 9)))
             Example.op Example.entryPoint 45292)
  = ok (45292 + 77).
Proof.
  split.
  - rewrite (calcArbitrumPreVerificationGas_result
               (Example.env (GasPrice.mk 100 3))
               (PublicClient.weaken (Example.client 42161 None 0 (77, 1, 2)))
               Example.op Example.entryPoint 45292
               "0x00000000" "0x00000000" 77 1 2);
      reflexivity.
  - rewrite (calcArbitrumPreVerificationGas_result
               (Example.env (GasPrice.mk 100 3))
               (PublicClient.weaken (Example.client 42161 None 0 (77, 500, 9)))
               Example.op Example.entryPoint 45292
               "0x00000000" "0x00000000" 77 500 9);
      reflexivity.
Defined.

(** ** The limit derivation *)

Section LimitsRun.

Variables (env : Env.t) (publicClient : PublicClient.t Chain.t)
          (op : UnPackedUserOperation) (ex : ExecutionResult)
          (chainId : Z) (block : Block.t).

Hypothesis Hblock :
  UserOp.maxPriorityFeePerGas op <> UserOp.maxFeePerGas op ->
  PublicClient.getBlock publicClient = ok block.

(** The derivation reads the block only when the two fees differ, and
    ends in the division of [paid] by the effective gas price. *)
Lemma calcVerificationGasAndCallGasLimit_run :
  calcVerificationGasAndCallGasLimit env publicClient op ex chainId
  = (if UserOp.maxPriorityFeePerGas op =? UserOp.maxFeePerGas op
     then [] else [getBlock_call],
     quotient <-
       bigint_div (paid ex) (gasPrice_spec op (Block.baseFeePerGas block)) ;;
     let callGasLimit :=
       Z.max (quotient - preOpGas ex + 21000 + 50000) 9000 in
     ok (Z.quot ((preOpGas ex - UserOp.preVerificationGas op) * 3) 2,
         if isBaseFamily env chainId then Z.quot (110 * callGasLimit) 100
         else callGasLimit)).
Proof.
  unfold calcVerificationGasAndCallGasLimit, gasPrice_spec.
  destruct (Z.eqb_spec (UserOp.maxPriorityFeePerGas op)
                       (UserOp.maxFeePerGas op)) as [E|E].
  - unfold resolve, sync, ok, bindP. cbn beta iota.
    destruct (bigint_div (paid ex) (UserOp.maxFeePerGas op)) as [e|q];
      cbn [bindR app]; [reflexivity|].
    replace (if q - preOpGas ex + 21000 + 50000 >? 9000
             then q - preOpGas ex + 21000 + 50000 else 9000)
      with (Z.max (q - preOpGas ex + 21000 + 50000) 9000)
      by (destruct (Z.gtb_spec (q - preOpGas ex + 21000 + 50000) 9000); lia).
    reflexivity.
  - unfold await. rewrite (Hblock E). unfold resolve, sync, ok, bindP.
    cbn beta iota.
    replace (if UserOp.maxFeePerGas op
                <? orElse (Block.baseFeePerGas block) 0
                   + UserOp.maxPriorityFeePerGas op
             then UserOp.maxFeePerGas op
             else UserOp.maxPriorityFeePerGas op
                  + orElse (Block.baseFeePerGas block) 0)
      with (Z.min (UserOp.maxFeePerGas op)
                  (UserOp.maxPriorityFeePerGas op
                   + orElse (Block.baseFeePerGas block) 0))
      by (destruct (Z.ltb_spec (UserOp.maxFeePerGas op)
                               (orElse (Block.baseFeePerGas block) 0
                                + UserOp.maxPriorityFeePerGas op)); lia).
    destruct (bigint_div (paid ex) _) as [e|q]; cbn [bindR app];
      [reflexivity|].
    replace (if q - preOpGas ex + 21000 + 50000 >? 9000
             then q - preOpGas ex + 21000 + 50000 else 9000)
      with (Z.max (q - preOpGas ex + 21000 + 50000) 9000)
      by (destruct (Z.gtb_spec (q - preOpGas ex + 21000 + 50000) 9000); lia).
    reflexivity.
Qed.

End LimitsRun.

(** C6, refuted as stated.  With [preOpGas = 0] and
    [preVerificationGas = 1] the code returns the verification gas limit
    [-1] (the bigint quotient of [-3] by [2]), where the floor is [-2]. *)
Lemma calcVerificationGasAndCallGasLimit_not_floor :
  let env := Example.env (GasPrice.mk 1 1) in
  let client := Example.client 1 None 0 (0, 0, 0) in
  let op := Example.withFees Example.op 1 1 1 in
  let ex := {| preOpGas := 0; paid := 0 |} in
  outcome (calcVerificationGasAndCallGasLimit env client op ex 1)
  = ok (-1, 71000) /\
  (verificationGasLimit_spec op ex, callGasLimit_spec env op ex None 1)
  = (-2, 71000) /\
  outcome (calcVerificationGasAndCallGasLimit env client op ex 1)
  <> ok (verificationGasLimit_spec op ex, callGasLimit_spec env op ex None 1).
Proof.
  repeat split; try (vm_compute; reflexivity).
  vm_compute. discriminate.
Qed.

(** C6, amended.  Whenever the effective gas price is positive (and [paid]
    unsigned), the derivation returns the call gas limit of the
    specification, with the 110/100 markup on the Base chains, and the
    verification gas limit [(preOpGas - preVerificationGas) * 3 / 2] with
    the quotient truncated towards zero.  That is the floor, and the pair
    is the one of the specification, when
    [preVerificationGas <= preOpGas]. *)
Theorem calcVerificationGasAndCallGasLimit_result
        (env : Env.t) (publicClient : PublicClient.t Chain.t)
        (op : UnPackedUserOperation) (ex : ExecutionResult)
        (chainId : Z) (block : Block.t) :
  (UserOp.maxPriorityFeePerGas op <> UserOp.maxFeePerGas op ->
   PublicClient.getBlock publicClient = ok block) ->
  0 <= paid ex ->
  0 < gasPrice_spec op (Block.baseFeePerGas block) ->
  let result :=
    outcome (calcVerificationGasAndCallGasLimit
               env publicClient op ex chainId) in
  result
  = ok (Z.quot ((preOpGas ex - UserOp.preVerificationGas op) * 3) 2,
        callGasLimit_spec env op ex (Block.baseFeePerGas block) chainId) /\
  (UserOp.preVerificationGas op <= preOpGas ex ->
   result
   = ok (verificationGasLimit_spec op ex,
         callGasLimit_spec env op ex (Block.baseFeePerGas block) chainId)).
Proof.
  intros Hb Hpaid Hprice result. subst result.
  rewrite (calcVerificationGasAndCallGasLimit_run
             env publicClient op ex chainId block Hb).
  cbn [outcome snd]. rewrite (bigint_div_floor _ _ Hpaid Hprice).
  cbn [bindR ok]. cbv zeta.
  assert (Hcall :
            (if isBaseFamily env chainId
             then Z.quot
                    (110 * Z.max (paid ex
                                  / gasPrice_spec op (Block.baseFeePerGas block)
                                  - preOpGas ex + 21000 + 50000) 9000) 100
             else Z.max (paid ex / gasPrice_spec op (Block.baseFeePerGas block)
                         - preOpGas ex + 21000 + 50000) 9000)
            = callGasLimit_spec env op ex (Block.baseFeePerGas block) chainId).
  { unfold callGasLimit_spec. cbv zeta.
    destruct (isBaseFamily env chainId); [|reflexivity].
    apply Z.quot_div_nonneg; lia. }
  rewrite Hcall. split; [reflexivity|].
  intros Hle. unfold verificationGasLimit_spec.
  rewrite Z.quot_div_nonneg by lia. reflexivity.
Qed.

(** C6 amended, at the example of the specification: [preOpGas = 100000],
    [preVerificationGas = 40000], [paid = 10000000], both fees [100]. *)
Lemma calcVerificationGasAndCallGasLimit_result_witness :
  outcome (calcVerificationGasAndCallGasLimit
             (Example.env (GasPrice.mk 1 1))
             (Example.client 1 None 0 (0, 0, 0))
             (Example.withFees Example.op 40000 100 100)
             {| preOpGas := 100000; paid := 10000000 |} 1)
  = ok (90000, 71000).
Proof.
  refine (proj1 (calcVerificationGasAndCallGasLimit_result
                   (Example.env (GasPrice.mk 1 1))
                   (Example.client 1 None 0 (0, 0, 0))
                   (Example.withFees Example.op 40000 100 100)
                   {| preOpGas := 100000; paid := 10000000 |} 1
                   (Block.mk None) (fun _ => eq_refl) _ _)).
  - simpl. lia.
  - reflexivity.
Defined.

(** C10.  Both divisions by a price are unguarded.  Given the responses
    the two functions need, the limit derivation returns a pair exactly
    when the effective gas price is not zero, and the Optimism calculator
    returns exactly when [min A (B + C)] is not zero; on a zero price each
    throws the [RangeError] of a bigint division by zero.  In particular
    the limit derivation throws, without any call, whenever both fees of
    the operation are zero. *)
Theorem price_divisions_unguarded
        (env : Env.t) (publicClient : PublicClient.t Chain.t)
        (op : UnPackedUserOperation) (ex : ExecutionResult)
        (chainId : Z) (block : Block.t)
        (optimismClient : PublicClient.t Chain.t)
        (entryPoint : string) (staticFee : Z) (logger : Logger)
        (data serializedTx : string) (F A B C : Z) :
  (UserOp.maxPriorityFeePerGas op <> UserOp.maxFeePerGas op ->
   PublicClient.getBlock publicClient = ok block) ->
  handleOpsData env op entryPoint = ok data ->
  PublicClient.getBlock optimismClient = ok (Block.mk (Some B)) ->
  Env.serializeTransaction
    env
    (syntheticTx entryPoint (Chain.id (PublicClient.chain optimismClient)) data)
    placeholderSignature
  = ok serializedTx ->
  PublicClient.getL1Fee optimismClient opGasPriceOracle serializedTx = ok F ->
  Env.getGasPrice env (PublicClient.chain optimismClient) optimismClient true
  = ok (GasPrice.mk A C) ->
  let limits :=
    calcVerificationGasAndCallGasLimit env publicClient op ex chainId in
  let surcharge :=
    calcOptimismPreVerificationGas
      env optimismClient op entryPoint staticFee logger in
  ((exists pair, outcome limits = ok pair)
   <-> gasPrice_spec op (Block.baseFeePerGas block) <> 0) /\
  (gasPrice_spec op (Block.baseFeePerGas block) = 0 ->
   outcome limits = throw (RangeError "Division by zero")) /\
  (UserOp.maxFeePerGas op = 0 -> UserOp.maxPriorityFeePerGas op = 0 ->
   limits = ([], throw (RangeError "Division by zero"))) /\
  ((exists gas, outcome surcharge = ok gas) <-> Z.min A (B + C) <> 0) /\
  (Z.min A (B + C) = 0 ->
   outcome surcharge = throw (RangeError "Division by zero")).
Proof.
  intros Hb Hd Hob Ht Hf Hp limits surcharge. subst limits surcharge.
  rewrite (calcVerificationGasAndCallGasLimit_run
             env publicClient op ex chainId block Hb).
  rewrite (calcOptimismPreVerificationGas_run
             env optimismClient op entryPoint staticFee logger
             data serializedTx F A B C Hd Hob Ht Hf Hp).
  cbn [outcome snd]. unfold bigint_div.
  split; [|split; [|split; [|split]]].
  - destruct (Z.eqb_spec (gasPrice_spec op (Block.baseFeePerGas block)) 0)
      as [E|E]; cbn [bindR ok throw].
    + split; [intros [pair H]; discriminate | congruence].
    + split; [intros _; assumption | intros _; eexists; reflexivity].
  - intros ->. reflexivity.
  - intros Hmax Hprio.
    assert (E : gasPrice_spec op (Block.baseFeePerGas block) = 0).
    { unfold gasPrice_spec. rewrite Hmax, Hprio. reflexivity. }
    rewrite E, Hmax, Hprio. reflexivity.
  - destruct (Z.eqb_spec (Z.min A (B + C)) 0) as [E|E]; cbn [bindR ok throw].
    + split; [intros [gas H]; discriminate | congruence].
    + split; [intros _; assumption | intros _; eexists; reflexivity].
  - intros ->. reflexivity.
Qed.

(** C10 at an operation whose two fees are zero, and at a price sample
    whose [maxFeePerGas] is zero. *)
Lemma price_divisions_unguarded_witness :
  calcVerificationGasAndCallGasLimit
    (Example.env (GasPrice.mk 0 3))
    (Example.client 1 (Some 50) 0 (0, 0, 0))
    (Example.withFees Example.op 40000 0 0)
    {| preOpGas := 100000; paid := 10000000 |} 1
  = ([], throw (RangeError "Division by zero")) /\
  outcome (calcOptimismPreVerificationGas
             (Example.env (GasPrice.mk 0 3))
             (Example.client 10 (Some 50) 100000 (0, 0, 0))
             (Example.withFees Example.op 40000 0 0)
             Example.entryPoint 45292 tt)
  = throw (RangeError "Division by zero").
Proof.
  pose proof (price_divisions_unguarded
                (Example.env (GasPrice.mk 0 3))
                (Example.client 1 (Some 50) 0 (0, 0, 0))
                (Example.withFees Example.op 40000 0 0)
                {| preOpGas := 100000; paid := 10000000 |} 1
                (Block.mk (Some 50))
                (Example.client 10 (Some 50) 100000 (0, 0, 0))
                Example.entryPoint 45292 tt
                "0x00000000" "0x00000000" 100000 0 50 3
                (fun _ => eq_refl) eq_refl eq_refl eq_refl eq_refl eq_refl)
    as (_ & _ & Hlimits & _ & Hsurcharge).
  split.
  - apply Hlimits; reflexivity.
  - apply Hsurcharge. reflexivity.
Defined.

(** ** Monotonicity *)

Lemma size_of_hex (h : string) (bs : list byte) :
  Hex.hexToBytes h = Some bs -> size h = length bs.
Proof.
  intros H. unfold size. rewrite (HexFacts.length_of_hex h bs H).
  replace (2 + 2 * length bs - 2)%nat with (length bs * 2)%nat by lia.
  apply Nat.div_mul. lia.
Qed.

(** C7, refuted as stated.  Under the default overheads, call data of 511
    zero bytes gives 47428 and call data of 512 zero bytes, one byte more,
    gives 47416: the data occupy the same sixteen words, and the length
    word [0x01ff] has two non-zero bytes where [0x0200] has one. *)
Lemma calcDefaultPreVerificationGas_not_monotone :
  let shorter := UserOp.withCallData Example.op (Example.zeros 511) in
  let longer := UserOp.withCallData Example.op (Example.zeros 512) in
  (size (UserOp.callData shorter) < size (UserOp.callData longer))%nat /\
  calcDefaultPreVerificationGas shorter None = ok 47428 /\
  calcDefaultPreVerificationGas longer None = ok 47416 /\
  ~ (forall r r',
        calcDefaultPreVerificationGas shorter None = ok r ->
        calcDefaultPreVerificationGas longer None = ok r' ->
        r <= r').
Proof.
  intros shorter longer.
  assert (Hs : calcDefaultPreVerificationGas shorter None = ok 47428)
    by (vm_compute; reflexivity).
  assert (Hl : calcDefaultPreVerificationGas longer None = ok 47416)
    by (vm_compute; reflexivity).
  repeat split; try assumption.
  - vm_compute. lia.
  - intros H. specialize (H _ _ Hs Hl). lia.
Qed.

(** C7, amended.  Replacing init code and call data by hex strings of at
    least as many bytes never shortens the worst-case encoding that the
    overhead model accounts, in bytes or in words: the model still returns
    an encoding, and it is at least as long.  (The rounded result itself
    can decrease, as the byte costs depend on the byte values.) *)
Theorem worstCaseEncoding_length_monotone
        (ov : GasOverheads) (op : UnPackedUserOperation)
        (initCode' callData' : string) (packed : list byte) :
  worstCaseEncoding ov op = ok packed ->
  (exists ic', Hex.hexToBytes initCode' = Some ic') ->
  (exists cd', Hex.hexToBytes callData' = Some cd') ->
  (size (UserOp.initCode op) <= size initCode')%nat ->
  (size (UserOp.callData op) <= size callData')%nat ->
  exists packed',
    worstCaseEncoding
      ov (UserOp.withInitCode (UserOp.withCallData op callData') initCode')
    = ok packed' /\
    (length packed <= length packed')%nat /\
    lengthInWords_spec packed <= lengthInWords_spec packed'.
Proof.
  intros H [ic' Hic'] [cd' Hcd'] Hi Hc.
  rewrite (size_of_hex _ _ Hic') in Hi. rewrite (size_of_hex _ _ Hcd') in Hc.
  unfold worstCaseEncoding in *.
  change (UserOp.signature
            (UserOp.withInitCode (UserOp.withCallData op callData') initCode'))
    with (UserOp.signature op).
  destruct (if String.eqb (UserOp.signature op) "0x" then _ else _)
    as [e|sig]; [discriminate|].
  cbn [bindR] in *.
  destruct (packUserOp (UserOp.withSignature op sig)) as [e|h] eqn:Hp;
    [discriminate|].
  cbn [bindR] in H.
  destruct (packUserOp_ok _ _ Hp) as (sd & ic & cd & Hs & Hl & Hic & Hcd & _).
  destruct (packUserOp_complete
              (UserOp.withSignature
                 (UserOp.withInitCode (UserOp.withCallData op callData')
                                      initCode') sig)
              sd ic' cd' Hs Hl Hic' Hcd') as [h' Hp'].
  rewrite Hp'. cbn [bindR].
  destruct (packUserOp_size _ _ Hp)
    as (ic0 & cd0 & packed0 & Hic0 & Hcd0 & Ht & Hlen).
  destruct (packUserOp_size _ _ Hp')
    as (ic1 & cd1 & packed1 & Hic1 & Hcd1 & Ht' & Hlen').
  rewrite H in Ht. inversion Ht; subst packed0; clear Ht.
  cbn [UserOp.withSignature UserOp.withInitCode UserOp.withCallData
       UserOp.initCode UserOp.callData UserOp.signature] in Hic0, Hcd0, Hic1, Hcd1, Hic, Hcd.
  rewrite Hic' in Hic1. rewrite Hcd' in Hcd1.
  inversion Hic1; subst ic1. inversion Hcd1; subst cd1.
  rewrite (size_of_hex _ _ Hic0) in Hi. rewrite (size_of_hex _ _ Hcd0) in Hc.
  change (Packed.paymasterAndData
            (toPackedUserOperation
               (UserOp.withSignature
                  (UserOp.withInitCode (UserOp.withCallData op callData')
                                       initCode') sig)))
    with (Packed.paymasterAndData
            (toPackedUserOperation (UserOp.withSignature op sig))) in Hlen'.
  change (UserOp.signature
            (UserOp.withSignature
               (UserOp.withInitCode (UserOp.withCallData op callData')
                                    initCode') sig))
    with (UserOp.signature (UserOp.withSignature op sig)) in Hlen'.
  pose proof (AbiFacts.padded_mono _ _ Hi) as Mi.
  pose proof (AbiFacts.padded_mono _ _ Hc) as Mc.
  assert (Hle : (length packed <= length packed1)%nat) by lia.
  exists packed1. split; [exact Ht'|]. split; [exact Hle|].
  destruct (packUserOp_size_mod _ _ Hp) as (p0 & k & Ht0 & Hk & _).
  destruct (packUserOp_size_mod _ _ Hp') as (p1 & k' & Ht1 & Hk' & _).
  rewrite H in Ht0. inversion Ht0; subst p0.
  rewrite Ht' in Ht1. inversion Ht1; subst p1.
  rewrite (lengthInWords_spec_words _ _ Hk), (lengthInWords_spec_words _ _ Hk').
  lia.
Qed.

(** C7 amended, at the sample operation, lengthened by four bytes of call
    data and one byte of init code. *)
Lemma worstCaseEncoding_length_monotone_witness :
  exists packed',
    worstCaseEncoding
      DefaultGasOverheads
      (UserOp.withInitCode (UserOp.withCallData Example.op "0xb61d27f6") "0x00")
    = ok packed' /\
    (608 <= length packed')%nat /\
    19 <= lengthInWords_spec packed'.
Proof.
  destruct (worstCaseEncoding DefaultGasOverheads Example.op)
    as [e|packed] eqn:E; [vm_compute in E; discriminate|].
  assert (Hlen : length packed = 608%nat /\ lengthInWords_spec packed = 19).
  { vm_compute in E. inversion E. split; vm_compute; reflexivity. }
  destruct Hlen as [<- <-].
  apply (worstCaseEncoding_length_monotone
           DefaultGasOverheads Example.op "0x00" "0xb61d27f6" packed E).
  - eexists. vm_compute. reflexivity.
  - eexists. vm_compute. reflexivity.
  - vm_compute. lia.
  - vm_compute. lia.
Defined.

(** ** The error normalizer *)

(** C8.  The normalizer is total and returns the cause exactly when the
    error is an instance of one of the two execution wrappers and its
    cause an instance of one of the six known kinds; in every other case
    it returns [undefined].  A wrapped nonce-too-low cause comes back as
    that cause, and an error of an unrelated class gives [undefined]. *)
Theorem parseViemError_classifies :
  (forall err,
      parseViemError err
      = if isExecutionWrapper err && knownCause (cause err)
        then cause err else undefined) /\
  knownCause undefined = false /\
  (forall more rest c,
      let e := object (NonceTooLowError :: rest) c in
      parseViemError (object (ContractFunctionExecutionError :: more) e) = e /\
      parseViemError (object (TransactionExecutionError :: more) e) = e /\
      instanceof e NonceTooLowError = true) /\
  (forall name c, parseViemError (object [OtherClass name] c) = undefined) /\
  parseViemError undefined = undefined /\
  parseViemError null = undefined /\
  (forall text, parseViemError (primitive text) = undefined).
Proof.
  split; [|repeat split; try reflexivity;
            unfold parseViemError; cbn [instanceof existsb ErrorClass_eqb];
            destruct (existsb _ more); reflexivity].
  intros err. unfold parseViemError, isExecutionWrapper, knownCause.
  destruct (instanceof err ContractFunctionExecutionError
            || instanceof err TransactionExecutionError); [|reflexivity].
  cbn [andb].
  destruct (instanceof (cause err) NonceTooLowError); [reflexivity|].
  destruct (instanceof (cause err) FeeCapTooLowError); [reflexivity|].
  destruct (instanceof (cause err) InsufficientFundsError); [reflexivity|].
  destruct (instanceof (cause err) IntrinsicGasTooLowError); [reflexivity|].
  destruct (instanceof (cause err) ContractFunctionRevertedError);
    [reflexivity|].
  destruct (instanceof (cause err) EstimateGasExecutionError); reflexivity.
Qed.

(** * Further properties of the code *)

(** ** [packUserOp] *)






(** X2.  The encoding that [packUserOp] returns has thirteen words of heads
    and length words, then init code and call data padded to whole words,
    then two runs of [0xFF] as long as the [.length] of the hex strings of
    [paymasterAndData] and of the signature, padded likewise; so it is a
    whole number of 32-byte words, at least thirteen. *)
Theorem packUserOp_encoding_size (op : UnPackedUserOperation) (h : string) :
  packUserOp op = ok h ->
  exists packed,
    Hex.toBytes h = ok packed /\
    length packed =
    (416 + padded (size (UserOp.initCode op))
     + padded (size (UserOp.callData op))
     + padded (String.length
                 (Packed.paymasterAndData (toPackedUserOperation op)))
     + padded (String.length (UserOp.signature op)))%nat /\
    (length packed mod 32 = 0)%nat /\
    (416 <= length packed)%nat.
Proof.
  intros H.
  destruct (packUserOp_size op h H) as (ic & cd & packed & Hi & Hc & Ht & Hlen).
  destruct (packUserOp_size_mod op h H) as (packed' & k & Ht' & Hk & Hk13).
  rewrite Ht in Ht'. inversion Ht'; subst packed'.
  exists packed. rewrite (size_of_hex _ _ Hi), (size_of_hex _ _ Hc).
  repeat split; try assumption.
  - rewrite Hk, Nat.mul_comm. apply Nat.Div0.mod_mul.
  - lia.
Qed.

Lemma packUserOp_encoding_size_witness :
  match packUserOp Example.op with
  | inr h =>
      exists packed,
        Hex.toBytes h = ok packed /\
        length packed =
        (416 + padded (size (UserOp.initCode Example.op))
         + padded (size (UserOp.callData Example.op))
         + padded (String.length
                     (Packed.paymasterAndData
                        (toPackedUserOperation Example.op)))
         + padded (String.length (UserOp.signature Example.op)))%nat /\
        (length packed mod 32 = 0)%nat /\
        (416 <= length packed)%nat
  | inl _ => False
  end.
Proof.
  destruct (packUserOp Example.op) as [e|h] eqn:E;
    [vm_compute in E; discriminate|].
  exact (packUserOp_encoding_size Example.op h E).
Defined.

(** ** What the estimates do not read *)





(** ** The overhead model: placeholder, closed form, failures *)

Lemma withSignature_same (op : UnPackedUserOperation) :
  UserOp.withSignature op (UserOp.signature op) = op.
Proof. destruct op. reflexivity. Qed.

(** X4.  An operation without signature ("0x") is accounted as the same
    operation signed with [sigSize] bytes of [0x01], for every overheads
    with a [sigSize] that is not negative. *)
Theorem calcDefaultPreVerificationGas_placeholder
        (op : UnPackedUserOperation) (overheads : option Partial.t) :
  UserOp.signature op = "0x" ->
  0 <= sigSize (spread DefaultGasOverheads overheads) ->
  calcDefaultPreVerificationGas op overheads
  = calcDefaultPreVerificationGas
      (UserOp.withSignature
         op
         (Hex.bytesToHex
            (repeat x01
                    (Z.to_nat (sigSize (spread DefaultGasOverheads overheads))))))
      overheads.
Proof.
  intros Hsig Hsize.
  destruct (Z.to_nat (sigSize (spread DefaultGasOverheads overheads)))
    as [|n] eqn:En.
  - change (Hex.bytesToHex (repeat x01 0)) with "0x".
    rewrite <- Hsig, withSignature_same. reflexivity.
  - unfold calcDefaultPreVerificationGas. cbv zeta.
    rewrite Hsig. cbn [String.eqb Ascii.eqb Bool.eqb].
    unfold Buffer_alloc.
    destruct (Z.ltb_spec (sigSize (spread DefaultGasOverheads overheads)) 0);
      [lia|].
    unfold filled. rewrite En. cbn [bindR ok].
    change (UserOp.signature
              (UserOp.withSignature op (Hex.bytesToHex (repeat x01 (S n)))))
      with (Hex.bytesToHex (repeat x01 (S n))).
    replace (String.eqb (Hex.bytesToHex (repeat x01 (S n))) "0x") with false
      by reflexivity.
    cbn [bindR ok]. reflexivity.
Qed.

Lemma calcDefaultPreVerificationGas_placeholder_witness :
  calcDefaultPreVerificationGas Example.op None
  = calcDefaultPreVerificationGas
      (UserOp.withSignature Example.op (Hex.bytesToHex (repeat x01 65))) None.
Proof.
  apply (calcDefaultPreVerificationGas_placeholder Example.op None).
  - reflexivity.
  - simpl. lia.
Defined.











(** ** The rollup calculators: calls and failures *)

(** The Optimism calculator, response by response. *)
Lemma calcOptimismPreVerificationGas_cases
      (env : Env.t) (publicClient : PublicClient.t Chain.t)
      (op : UnPackedUserOperation) (entryPoint : string)
      (staticFee : Z) (logger : Logger) :
  calcOptimismPreVerificationGas env publicClient op entryPoint staticFee logger
  = match handleOpsData env op entryPoint with
    | inl e => ([], inl e)
    | inr data =>
        match PublicClient.getBlock publicClient with
        | inl e => ([getBlock_call], inl e)
        | inr block =>
            match Block.baseFeePerGas block with
            | None =>
                ([getBlock_call],
                 throw (RpcError "block does not have baseFeePerGas"))
            | Some baseFee =>
                match Env.serializeTransaction
                        env
                        (syntheticTx
                           entryPoint
                           (Chain.id (PublicClient.chain publicClient)) data)
                        placeholderSignature with
                | inl e => ([getBlock_call], inl e)
                | inr serializedTx =>
                    match PublicClient.getL1Fee
                            publicClient opGasPriceOracle serializedTx with
                    | inl e =>
                        ([getBlock_call;
                          simulate_call opGasPriceOracle "getL1Fee"], inl e)
                    | inr l1Fee =>
                        match Env.getGasPrice
                                env (PublicClient.chain publicClient)
                                publicClient true with
                        | inl e => (optimismCalls, inl e)
                        | inr price =>
                            (optimismCalls,
                             quotient <-
                               bigint_div
                                 l1Fee
                                 (Z.min (GasPrice.maxFeePerGas price)
                                        (baseFee
                                         + GasPrice.maxPriorityFeePerGas price)) ;;
                             ok (staticFee + quotient))
                        end
                    end
                end
            end
        end
    end.
Proof.
  unfold calcOptimismPreVerificationGas.
  destruct (handleOpsData env op entryPoint) as [e|data]; [reflexivity|].
  rewrite bindP_sync_ok. unfold await.
  destruct (PublicClient.getBlock publicClient) as [e|block]; [reflexivity|].
  cbn [bindP]. destruct (Block.baseFeePerGas block) as [baseFee|];
    [|reflexivity].
  unfold syntheticTx.
  destruct (Env.serializeTransaction env _ placeholderSignature)
    as [e|serializedTx]; [reflexivity|].
  rewrite bindP_sync_ok. unfold opGasPriceOracle.
  destruct (PublicClient.getL1Fee publicClient _ serializedTx) as [e|l1Fee];
    [reflexivity|].
  cbn [bindP].
  destruct (Env.getGasPrice env _ publicClient true) as [e|price];
    [reflexivity|].
  cbn [bindP].
  replace (if GasPrice.maxFeePerGas price
              <? baseFee + GasPrice.maxPriorityFeePerGas price
           then GasPrice.maxFeePerGas price
           else baseFee + GasPrice.maxPriorityFeePerGas price)
    with (Z.min (GasPrice.maxFeePerGas price)
                (baseFee + GasPrice.maxPriorityFeePerGas price))
    by (destruct (Z.ltb_spec (GasPrice.maxFeePerGas price)
                             (baseFee + GasPrice.maxPriorityFeePerGas price));
        lia).
  unfold sync, resolve, bindP.
  destruct (bigint_div l1Fee _); reflexivity.
Qed.

(** The Arbitrum calculator, response by response. *)
Lemma calcArbitrumPreVerificationGas_cases
      (env : Env.t) (publicClient : PublicClient.t (option Chain.t))
      (op : UnPackedUserOperation) (entryPoint : string) (staticFee : Z) :
  calcArbitrumPreVerificationGas env publicClient op entryPoint staticFee
  = match handleOpsData env op entryPoint with
    | inl e => ([], inl e)
    | inr data =>
        match Env.serializeTransaction
                env
                (syntheticTx entryPoint
                             (match PublicClient.chain publicClient with
                              | Some c => Chain.id c
                              | None => 10
                              end)
                             data)
                placeholderSignature with
        | inl e => ([], inl e)
        | inr serializedTx =>
            match PublicClient.gasEstimateL1Component
                    publicClient arbPrecompile entryPoint false
                    serializedTx with
            | inl e => (arbitrumCalls, inl e)
            | inr estimate =>
                (arbitrumCalls, ok (fst (fst estimate) + staticFee))
            end
        end
    end.
Proof.
  unfold calcArbitrumPreVerificationGas.
  destruct (handleOpsData env op entryPoint) as [e|data]; [reflexivity|].
  rewrite bindP_sync_ok. unfold syntheticTx.
  destruct (Env.serializeTransaction env _ placeholderSignature)
    as [e|serializedTx]; [reflexivity|].
  rewrite bindP_sync_ok. unfold await, arbPrecompile.
  destruct (PublicClient.gasEstimateL1Component publicClient _ _ _ _);
    reflexivity.
Qed.



(** X8.  The Optimism calculator calls its collaborators in one order:
    the block, then the fee oracle, then the gas price with [fast = true].
    It stops at the first that fails and rethrows its exception unchanged;
    the calls it made are always a starting piece of these three, and all
    three when it returns. *)
Theorem calcOptimismPreVerificationGas_calls
        (env : Env.t) (publicClient : PublicClient.t Chain.t)
        (op : UnPackedUserOperation) (entryPoint : string)
        (staticFee : Z) (logger : Logger) (data : string) :
  handleOpsData env op entryPoint = ok data ->
  let result :=
    calcOptimismPreVerificationGas
      env publicClient op entryPoint staticFee logger in
  let serialized :=
    Env.serializeTransaction
      env
      (syntheticTx entryPoint (Chain.id (PublicClient.chain publicClient)) data)
      placeholderSignature in
  startsWith optimismCalls (calls result) /\
  (forall gas, outcome result = ok gas -> calls result = optimismCalls) /\
  (forall e, PublicClient.getBlock publicClient = throw e ->
             result = ([getBlock_call], throw e)) /\
  (forall e baseFee serializedTx,
      PublicClient.getBlock publicClient = ok (Block.mk (Some baseFee)) ->
      serialized = ok serializedTx ->
      PublicClient.getL1Fee publicClient opGasPriceOracle serializedTx
      = throw e ->
      result
      = ([getBlock_call; simulate_call opGasPriceOracle "getL1Fee"],
         throw e)) /\
  (forall e baseFee serializedTx l1Fee,
      PublicClient.getBlock publicClient = ok (Block.mk (Some baseFee)) ->
      serialized = ok serializedTx ->
      PublicClient.getL1Fee publicClient opGasPriceOracle serializedTx
      = ok l1Fee ->
      Env.getGasPrice env (PublicClient.chain publicClient) publicClient true
      = throw e ->
      result = (optimismCalls, throw e)).
Proof.
  intros Hd. cbv zeta. rewrite calcOptimismPreVerificationGas_cases, Hd.
  unfold ok, throw. cbv beta iota.
  split; [|split; [|split; [|split]]].
  - destruct (PublicClient.getBlock publicClient) as [e0|block];
      [exists (tl optimismCalls); reflexivity|].
    destruct (Block.baseFeePerGas block) as [baseFee|];
      [|exists (tl optimismCalls); reflexivity].
    destruct (Env.serializeTransaction env _ placeholderSignature)
      as [e0|serializedTx]; [exists (tl optimismCalls); reflexivity|].
    destruct (PublicClient.getL1Fee publicClient opGasPriceOracle serializedTx);
      [exists [getGasPrice_call true]; reflexivity|].
    destruct (Env.getGasPrice env _ publicClient true);
      exists []; reflexivity.
  - destruct (PublicClient.getBlock publicClient) as [e0|block];
      [intros gas H; discriminate|].
    destruct (Block.baseFeePerGas block) as [baseFee|];
      [|intros gas H; discriminate].
    destruct (Env.serializeTransaction env _ placeholderSignature)
      as [e0|serializedTx]; [intros gas H; discriminate|].
    destruct (PublicClient.getL1Fee publicClient opGasPriceOracle serializedTx);
      [intros gas H; discriminate|].
    destruct (Env.getGasPrice env _ publicClient true);
      [intros gas H; discriminate | reflexivity].
  - intros e Hb. rewrite Hb. reflexivity.
  - intros e baseFee serializedTx Hb Ht Hf.
    rewrite Hb. cbv beta iota. cbn [Block.baseFeePerGas].
    rewrite Ht. cbv beta iota. rewrite Hf. reflexivity.
  - intros e baseFee serializedTx l1Fee Hb Ht Hf Hp.
    rewrite Hb. cbv beta iota. cbn [Block.baseFeePerGas].
    rewrite Ht. cbv beta iota. rewrite Hf. cbv beta iota.
    rewrite Hp. reflexivity.
Qed.

Lemma calcOptimismPreVerificationGas_calls_witness :
  let failing : PublicClient.t Chain.t :=
    PublicClient.mk (Chain.mk 10) (ok (Block.mk (Some 50)))
                    (fun _ _ => throw (Rejected "reverted"))
                    (fun _ _ _ _ => ok (0, 0, 0)) in
  calcOptimismPreVerificationGas
    (Example.env (GasPrice.mk 100 3)) failing Example.op Example.entryPoint
    45292 tt
  = ([getBlock_call; simulate_call opGasPriceOracle "getL1Fee"],
     throw (Rejected "reverted")).
Proof.
  intros failing.
  destruct (calcOptimismPreVerificationGas_calls
              (Example.env (GasPrice.mk 100 3)) failing Example.op
              Example.entryPoint 45292 tt "0x00000000" eq_refl)
    as (_ & _ & _ & Horacle & _).
  apply (Horacle (Rejected "reverted") 50 "0x00000000"); reflexivity.
Defined.

(** X9.  The Arbitrum calculator makes at most one call, to the precompile
    at [0x...C8] with [contractCreation = false], and never reads a block
    or a gas price; a failure of that call is rethrown unchanged, and a
    client without a chain is treated as a client on chain 10. *)
Theorem calcArbitrumPreVerificationGas_calls
        (env : Env.t) (publicClient : PublicClient.t (option Chain.t))
        (op : UnPackedUserOperation) (entryPoint : string) (staticFee : Z) :
  let result :=
    calcArbitrumPreVerificationGas env publicClient op entryPoint staticFee in
  startsWith arbitrumCalls (calls result) /\
  (forall gas, outcome result = ok gas -> calls result = arbitrumCalls) /\
  (forall e data serializedTx,
      handleOpsData env op entryPoint = ok data ->
      Env.serializeTransaction
        env
        (syntheticTx entryPoint
                     (match PublicClient.chain publicClient with
                      | Some c => Chain.id c
                      | None => 10
                      end)
                     data)
        placeholderSignature
      = ok serializedTx ->
      PublicClient.gasEstimateL1Component
        publicClient arbPrecompile entryPoint false serializedTx
      = throw e ->
      result = (arbitrumCalls, throw e)) /\
  (PublicClient.chain publicClient = None ->
   result
   = calcArbitrumPreVerificationGas
       env
       (PublicClient.mk (Some (Chain.mk 10))
                        (PublicClient.getBlock publicClient)
                        (PublicClient.getL1Fee publicClient)
                        (PublicClient.gasEstimateL1Component publicClient))
       op entryPoint staticFee).
Proof.
  cbv zeta. split; [|split; [|split]].
  - rewrite calcArbitrumPreVerificationGas_cases.
    destruct (handleOpsData env op entryPoint) as [e0|data];
      [exists arbitrumCalls; reflexivity|].
    destruct (Env.serializeTransaction env _ placeholderSignature)
      as [e0|serializedTx]; [exists arbitrumCalls; reflexivity|].
    destruct (PublicClient.gasEstimateL1Component publicClient _ _ _ _);
      exists []; reflexivity.
  - rewrite calcArbitrumPreVerificationGas_cases.
    destruct (handleOpsData env op entryPoint) as [e0|data];
      [intros gas H; discriminate|].
    destruct (Env.serializeTransaction env _ placeholderSignature)
      as [e0|serializedTx]; [intros gas H; discriminate|].
    destruct (PublicClient.gasEstimateL1Component publicClient _ _ _ _);
      [intros gas H; discriminate | reflexivity].
  - intros e data serializedTx Hd Ht Hr.
    rewrite calcArbitrumPreVerificationGas_cases, Hd.
    cbv beta iota delta [ok]. unfold ok in Ht. rewrite Ht.
    cbv beta iota. rewrite Hr. reflexivity.
  - intros Hc. rewrite !calcArbitrumPreVerificationGas_cases.
    cbn [PublicClient.chain PublicClient.gasEstimateL1Component].
    rewrite Hc. reflexivity.
Qed.

Lemma calcArbitrumPreVerificationGas_calls_witness :
  let failing : PublicClient.t (option Chain.t) :=
    PublicClient.mk None (ok (Block.mk None)) (fun _ _ => ok 0)
                    (fun _ _ _ _ => throw (Rejected "reverted")) in
  let result :=
    calcArbitrumPreVerificationGas
      (Example.env (GasPrice.mk 100 3)) failing Example.op Example.entryPoint
      45292 in
  result = (arbitrumCalls, throw (Rejected "reverted")) /\
  result
  = calcArbitrumPreVerificationGas
      (Example.env (GasPrice.mk 100 3))
      (PublicClient.mk (Some (Chain.mk 10)) (ok (Block.mk None))
                       (fun _ _ => ok 0)
                       (fun _ _ _ _ => throw (Rejected "reverted")))
      Example.op Example.entryPoint 45292.
Proof.
  intros failing result.
  destruct (calcArbitrumPreVerificationGas_calls
              (Example.env (GasPrice.mk 100 3)) failing Example.op
              Example.entryPoint 45292) as (_ & _ & Hfail & Hchain).
  split.
  - apply (Hfail (Rejected "reverted") "0x00000000" "0x00000000");
      reflexivity.
  - apply Hchain. reflexivity.
Defined.

(** ** The dispatcher: calls, failures, and the baseline as a floor *)



Lemma bigint_div_nonneg (a b q : Z) :
  0 <= a -> 0 <= b -> bigint_div a b = ok q -> 0 <= q.
Proof.
  unfold bigint_div. intros Ha Hb.
  destruct (Z.eqb_spec b 0); [discriminate|].
  intros H. inversion H. apply Z.quot_pos; lia.
Qed.

(** X11.  With unsigned collaborator responses and a baseline that is not
    negative, whatever the dispatcher returns is at least the baseline of
    the overhead model, on every chain: a rollup surcharge never lowers
    the estimate. *)
Theorem calcPreVerificationGas_at_least_baseline
        (env : Env.t) (publicClient : PublicClient.t Chain.t)
        (userOperation : UnPackedUserOperation) (entryPoint : string)
        (chainId : Z) (logger : Logger) (overheads : option GasOverheads)
        (baseline gas : Z) :
  calcDefaultPreVerificationGas
    userOperation (option_map asPartial overheads) = ok baseline ->
  0 <= baseline ->
  unsignedResponses env publicClient ->
  outcome (calcPreVerificationGas
             env publicClient userOperation entryPoint chainId logger
             overheads)
  = ok gas ->
  baseline <= gas.
Proof.
  intros Hb Hpos (Hblock & Hfee & Hest & Hprice).
  unfold calcPreVerificationGas. rewrite Hb, bindP_sync_ok.
  destruct (isDoubleCost chainId).
  { cbn. intros H. inversion H. lia. }
  destruct (isOptimismStack env chainId).
  { rewrite calcOptimismPreVerificationGas_cases.
    destruct (handleOpsData env userOperation entryPoint) as [e|data];
      [discriminate|].
    destruct (PublicClient.getBlock publicClient) as [e|block] eqn:Eb;
      [discriminate|].
    destruct (Block.baseFeePerGas block) as [baseFee|] eqn:Ef;
      [|discriminate].
    destruct (Env.serializeTransaction env _ placeholderSignature)
      as [e|serializedTx]; [discriminate|].
    destruct (PublicClient.getL1Fee publicClient opGasPriceOracle serializedTx)
      as [e|l1Fee] eqn:El; [discriminate|].
    destruct (Env.getGasPrice env _ publicClient true) as [e|price] eqn:Ep;
      [discriminate|].
    cbn [outcome snd].
    destruct (bigint_div l1Fee _) as [e|q] eqn:Eq; [discriminate|].
    cbn [bindR ok]. intros H. inversion H; subst gas.
    pose proof (Hblock block baseFee eq_refl Ef).
    pose proof (Hfee _ _ _ El).
    destruct (Hprice _ _ Ep).
    assert (0 <= q) by (eapply bigint_div_nonneg; [| |exact Eq]; lia).
    lia. }
  destruct (isArbitrum env chainId).
  { rewrite calcArbitrumPreVerificationGas_cases.
    destruct (handleOpsData env userOperation entryPoint) as [e|data];
      [discriminate|].
    destruct (Env.serializeTransaction env _ placeholderSignature)
      as [e|serializedTx]; [discriminate|].
    destruct (PublicClient.gasEstimateL1Component
                (PublicClient.weaken publicClient) _ _ _ _)
      as [e|estimate] eqn:Ee; [discriminate|].
    cbn [outcome snd]. intros H. inversion H; subst gas.
    pose proof (Hest _ _ _ _ _ Ee). lia. }
  cbn. intros H. inversion H. lia.
Qed.

Lemma calcPreVerificationGas_at_least_baseline_witness :
  45292 <= 47178.
Proof.
  apply (calcPreVerificationGas_at_least_baseline
           (Example.env (GasPrice.mk 100 3))
           (Example.client 10 (Some 50) 100000 (77, 1, 2))
           Example.op Example.entryPoint 10 tt None 45292 47178).
  - vm_compute. reflexivity.
  - lia.
  - repeat split.
    + intros block baseFee H1 H2. inversion H1; subst block.
      inversion H2. lia.
    + intros address data fee H. inversion H. lia.
    + intros address to creation data estimate H. inversion H. simpl. lia.
    + inversion H. simpl. lia.
    + inversion H. simpl. lia.
  - vm_compute. reflexivity.
Defined.

(** ** The limit derivation: invariants and calls *)

(** The limit derivation, response by response. *)
Lemma calcVerificationGasAndCallGasLimit_cases
      (env : Env.t) (publicClient : PublicClient.t Chain.t)
      (op : UnPackedUserOperation) (ex : ExecutionResult) (chainId : Z) :
  let finish (price : Z) : Result (Z * Z) :=
    quotient <- bigint_div (paid ex) price ;;
    let callGasLimit := Z.max (quotient - preOpGas ex + 21000 + 50000) 9000 in
    ok (Z.quot ((preOpGas ex - UserOp.preVerificationGas op) * 3) 2,
        if isBaseFamily env chainId then Z.quot (110 * callGasLimit) 100
        else callGasLimit) in
  calcVerificationGasAndCallGasLimit env publicClient op ex chainId
  = if UserOp.maxPriorityFeePerGas op =? UserOp.maxFeePerGas op
    then ([], finish (UserOp.maxFeePerGas op))
    else
      match PublicClient.getBlock publicClient with
      | inl e => ([getBlock_call], inl e)
      | inr block =>
          ([getBlock_call],
           finish (Z.min (UserOp.maxFeePerGas op)
                         (UserOp.maxPriorityFeePerGas op
                          + orElse (Block.baseFeePerGas block) 0)))
      end.
Proof.
  cbv zeta.
  destruct (Z.eqb_spec (UserOp.maxPriorityFeePerGas op)
                       (UserOp.maxFeePerGas op)) as [E|E].
  - rewrite (calcVerificationGasAndCallGasLimit_run
               env publicClient op ex chainId (Block.mk None))
      by (intros H; contradiction).
    unfold gasPrice_spec.
    destruct (Z.eqb_spec (UserOp.maxPriorityFeePerGas op)
                         (UserOp.maxFeePerGas op)); [reflexivity|contradiction].
  - destruct (PublicClient.getBlock publicClient) as [e|block] eqn:Eb.
    + unfold calcVerificationGasAndCallGasLimit.
      destruct (Z.eqb_spec (UserOp.maxPriorityFeePerGas op)
                           (UserOp.maxFeePerGas op)); [contradiction|].
      unfold await. rewrite Eb. reflexivity.
    + rewrite (calcVerificationGasAndCallGasLimit_run
                 env publicClient op ex chainId block) by (intros _; exact Eb).
      unfold gasPrice_spec.
      destruct (Z.eqb_spec (UserOp.maxPriorityFeePerGas op)
                           (UserOp.maxFeePerGas op)); [contradiction|].
      reflexivity.
Qed.

(** X12.  Every pair the limit derivation returns has a call gas limit of
    at least 9000, and of at least 9900 on the Base chains; and when the
    simulation spent at least the [preVerificationGas] before the
    operation, the verification gas limit is at least the difference and
    at most one and a half times it. *)
Theorem calcVerificationGasAndCallGasLimit_bounds
        (env : Env.t) (publicClient : PublicClient.t Chain.t)
        (op : UnPackedUserOperation) (ex : ExecutionResult) (chainId : Z)
        (verificationGasLimit callGasLimit : Z) :
  outcome (calcVerificationGasAndCallGasLimit env publicClient op ex chainId)
  = ok (verificationGasLimit, callGasLimit) ->
  9000 <= callGasLimit /\
  (isBaseFamily env chainId = true -> 9900 <= callGasLimit) /\
  (UserOp.preVerificationGas op <= preOpGas ex ->
   preOpGas ex - UserOp.preVerificationGas op <= verificationGasLimit /\
   2 * verificationGasLimit
   <= 3 * (preOpGas ex - UserOp.preVerificationGas op)).
Proof.
  rewrite calcVerificationGasAndCallGasLimit_cases. cbv zeta.
  assert (Hfinish :
            forall price,
              (quotient <- bigint_div (paid ex) price ;;
               ok (Z.quot ((preOpGas ex - UserOp.preVerificationGas op) * 3) 2,
                   if isBaseFamily env chainId
                   then Z.quot
                          (110 * Z.max (quotient - preOpGas ex + 21000 + 50000)
                                       9000) 100
                   else Z.max (quotient - preOpGas ex + 21000 + 50000) 9000))
              = ok (verificationGasLimit, callGasLimit) ->
              9000 <= callGasLimit /\
              (isBaseFamily env chainId = true -> 9900 <= callGasLimit) /\
              (UserOp.preVerificationGas op <= preOpGas ex ->
               preOpGas ex - UserOp.preVerificationGas op
               <= verificationGasLimit /\
               2 * verificationGasLimit
               <= 3 * (preOpGas ex - UserOp.preVerificationGas op))).
  { intros price. destruct (bigint_div (paid ex) price) as [e|q];
      [discriminate|].
    cbn [bindR]. unfold ok. intros H.
    pose proof (f_equal (fun r : Result (Z * Z) =>
                           match r with inr p => fst p | inl _ => 0 end) H)
      as Hv.
    pose proof (f_equal (fun r : Result (Z * Z) =>
                           match r with inr p => snd p | inl _ => 0 end) H)
      as Hc.
    cbv beta iota delta [fst snd] in Hv, Hc. clear H.
    set (m := Z.max (q - preOpGas ex + 21000 + 50000) 9000) in *.
    assert (Hm : 9000 <= m) by (subst m; lia).
    assert (Hq : 9900 <= Z.quot (110 * m) 100)
      by (apply Z.quot_le_lower_bound; lia).
    split; [destruct (isBaseFamily env chainId); lia|].
    split; [intros Hbase; rewrite Hbase in Hc; lia|].
    intros Hle. subst verificationGasLimit.
    set (d := preOpGas ex - UserOp.preVerificationGas op) in *.
    rewrite Z.quot_div_nonneg by lia.
    split.
    - apply Z.div_le_lower_bound; lia.
    - pose proof (Z.mul_div_le (d * 3) 2 ltac:(lia)). lia. }
  destruct (UserOp.maxPriorityFeePerGas op =? UserOp.maxFeePerGas op).
  - cbn [outcome snd]. apply Hfinish.
  - destruct (PublicClient.getBlock publicClient) as [e|block];
      [discriminate|].
    cbn [outcome snd]. apply Hfinish.
Qed.

Lemma calcVerificationGasAndCallGasLimit_bounds_witness :
  9000 <= 78100 /\
  (isBaseFamily (Example.env (GasPrice.mk 1 1)) 8453 = true -> 9900 <= 78100) /\
  (40000 <= 100000 ->
   100000 - 40000 <= 90000 /\ 2 * 90000 <= 3 * (100000 - 40000)).
Proof.
  apply (calcVerificationGasAndCallGasLimit_bounds
           (Example.env (GasPrice.mk 1 1))
           (Example.client 8453 None 0 (0, 0, 0))
           (Example.withFees Example.op 40000 100 100)
           {| preOpGas := 100000; paid := 10000000 |} 8453 90000 78100).
  vm_compute. reflexivity.
Defined.

(** X13.  The limit derivation reads the block exactly when the two fees of
    the operation differ, and makes no other call; a failure of that read
    is rethrown unchanged; with equal fees the result is the same for
    every client; and a block without base fee counts as a base fee of
    zero. *)
Theorem calcVerificationGasAndCallGasLimit_calls
        (env : Env.t) (publicClient : PublicClient.t Chain.t)
        (op : UnPackedUserOperation) (ex : ExecutionResult) (chainId : Z) :
  let result :=
    calcVerificationGasAndCallGasLimit env publicClient op ex chainId in
  calls result
  = (if UserOp.maxPriorityFeePerGas op =? UserOp.maxFeePerGas op
     then [] else [getBlock_call]) /\
  (forall e,
      UserOp.maxPriorityFeePerGas op <> UserOp.maxFeePerGas op ->
      PublicClient.getBlock publicClient = throw e ->
      result = ([getBlock_call], throw e)) /\
  (UserOp.maxPriorityFeePerGas op = UserOp.maxFeePerGas op ->
   forall other,
     calcVerificationGasAndCallGasLimit env other op ex chainId = result) /\
  (PublicClient.getBlock publicClient = ok (Block.mk None) ->
   forall other,
     PublicClient.getBlock other = ok (Block.mk (Some 0)) ->
     calcVerificationGasAndCallGasLimit env other op ex chainId = result).
Proof.
  cbv zeta. split; [|split; [|split]].
  - rewrite calcVerificationGasAndCallGasLimit_cases. cbv zeta.
    destruct (UserOp.maxPriorityFeePerGas op =? UserOp.maxFeePerGas op);
      [reflexivity|].
    destruct (PublicClient.getBlock publicClient); reflexivity.
  - intros e Hne Hb.
    rewrite calcVerificationGasAndCallGasLimit_cases. cbv zeta.
    destruct (Z.eqb_spec (UserOp.maxPriorityFeePerGas op)
                         (UserOp.maxFeePerGas op)); [contradiction|].
    rewrite Hb. reflexivity.
  - intros Heq other.
    rewrite !calcVerificationGasAndCallGasLimit_cases. cbv zeta.
    rewrite Heq, Z.eqb_refl. reflexivity.
  - intros Hb other Ho.
    rewrite !calcVerificationGasAndCallGasLimit_cases. cbv zeta.
    rewrite Hb, Ho. reflexivity.
Qed.

Lemma calcVerificationGasAndCallGasLimit_calls_witness :
  let failing : PublicClient.t Chain.t :=
    PublicClient.mk (Chain.mk 1) (throw (Rejected "timeout"))
                    (fun _ _ => ok 0) (fun _ _ _ _ => ok (0, 0, 0)) in
  calcVerificationGasAndCallGasLimit
    (Example.env (GasPrice.mk 1 1)) failing
    (Example.withFees Example.op 40000 100 3)
    {| preOpGas := 100000; paid := 10000000 |} 1
  = ([getBlock_call], throw (Rejected "timeout")) /\
  calcVerificationGasAndCallGasLimit
    (Example.env (GasPrice.mk 1 1)) failing
    (Example.withFees Example.op 40000 100 100)
    {| preOpGas := 100000; paid := 10000000 |} 1
  = calcVerificationGasAndCallGasLimit
      (Example.env (GasPrice.mk 1 1)) (Example.client 1 None 0 (0, 0, 0))
      (Example.withFees Example.op 40000 100 100)
      {| preOpGas := 100000; paid := 10000000 |} 1.
Proof.
  intros failing. split.
  - destruct (calcVerificationGasAndCallGasLimit_calls
                (Example.env (GasPrice.mk 1 1)) failing
                (Example.withFees Example.op 40000 100 3)
                {| preOpGas := 100000; paid := 10000000 |} 1)
      as (_ & Hfail & _ & _).
    apply Hfail; [vm_compute; lia | reflexivity].
  - destruct (calcVerificationGasAndCallGasLimit_calls
                (Example.env (GasPrice.mk 1 1))
                (Example.client 1 None 0 (0, 0, 0))
                (Example.withFees Example.op 40000 100 100)
                {| preOpGas := 100000; paid := 10000000 |} 1)
      as (_ & _ & Hsame & _).
    apply Hsame. reflexivity.
Defined.

(** ** The canonicalizer on every packed operation *)

(** X14.  For every packed operation the canonicalizer writes into
    [paymasterAndData] and [signature] as many bytes of [0xFF] as the hex
    string it replaces has characters, so that a field of [n] bytes comes
    back with [2 + 2 n] bytes; it is therefore never idempotent: applied to
    its own result it changes the signature again. *)
Theorem packedUserOperationToRandomDataUserOp_fills
        (p : PackedUserOperation) :
  let r := packedUserOperationToRandomDataUserOp p in
  Hex.hexToBytes (Packed.paymasterAndData r)
  = Some (repeat xff (String.length (Packed.paymasterAndData p))) /\
  Hex.hexToBytes (Packed.signature r)
  = Some (repeat xff (String.length (Packed.signature p))) /\
  (forall pm, Hex.hexToBytes (Packed.paymasterAndData p) = Some pm ->
              size (Packed.paymasterAndData r) = (2 + 2 * length pm)%nat) /\
  (forall sg, Hex.hexToBytes (Packed.signature p) = Some sg ->
              size (Packed.signature r) = (2 + 2 * length sg)%nat) /\
  packedUserOperationToRandomDataUserOp r <> r.
Proof.
  cbv zeta. unfold packedUserOperationToRandomDataUserOp.
  cbn [Packed.paymasterAndData Packed.signature].
  split; [apply HexFacts.hexToBytes_bytesToHex|].
  split; [apply HexFacts.hexToBytes_bytesToHex|].
  split; [|split].
  - intros pm H.
    rewrite (size_of_hex _ _ (HexFacts.hexToBytes_bytesToHex _)).
    rewrite filled_length. exact (HexFacts.length_of_hex _ _ H).
  - intros sg H.
    rewrite (size_of_hex _ _ (HexFacts.hexToBytes_bytesToHex _)).
    rewrite filled_length. exact (HexFacts.length_of_hex _ _ H).
  - intros H. apply (f_equal Packed.signature) in H.
    cbn [Packed.signature] in H.
    apply (f_equal String.length) in H.
    repeat first [rewrite HexFacts.length_bytesToHex in H
                 | rewrite filled_length in H].
    lia.
Qed.

Lemma packedUserOperationToRandomDataUserOp_fills_witness :
  size (Packed.signature
          (packedUserOperationToRandomDataUserOp Example.packed))
  = (2 + 2 * 2)%nat.
Proof.
  destruct (packedUserOperationToRandomDataUserOp_fills Example.packed)
    as (_ & _ & _ & Hsig & _).
  apply (Hsig [xab; xcd]). reflexivity.
Defined.

(** ** Overridden byte costs *)

(** X15.  The byte costs are stored into a [Uint8Array] before they are
    summed, so only their value modulo 256 counts: two overrides whose byte
    costs agree modulo 256 give the same result. *)
Theorem calcDefaultPreVerificationGas_byte_costs_modulo
        (op : UnPackedUserOperation) (overheads : Partial.t)
        (z n z' n' : Z) :
  z mod 256 = z' mod 256 -> n mod 256 = n' mod 256 ->
  calcDefaultPreVerificationGas op (Some (withByteCosts overheads z n))
  = calcDefaultPreVerificationGas op (Some (withByteCosts overheads z' n')).
Proof.
  intros Hz Hn. rewrite !calcDefaultPreVerificationGas_eq. cbv zeta.
  set (ov := spread DefaultGasOverheads (Some (withByteCosts overheads z n))).
  set (ov' := spread DefaultGasOverheads
                     (Some (withByteCosts overheads z' n'))).
  change (worstCaseEncoding ov' op) with (worstCaseEncoding ov op).
  destruct (worstCaseEncoding ov op) as [e|packed]; [reflexivity|].
  cbn [bindR].
  assert (Hmap :
            Uint8Array_map
              (fun x => if Byte.eqb x x00 then zeroByte ov else nonZeroByte ov)
              packed
            = Uint8Array_map
                (fun x => if Byte.eqb x x00 then zeroByte ov'
                          else nonZeroByte ov')
                packed).
  { unfold Uint8Array_map. apply map_ext. intros x. unfold ToUint8.
    change (zeroByte ov) with z. change (zeroByte ov') with z'.
    change (nonZeroByte ov) with n. change (nonZeroByte ov') with n'.
    destruct (Byte.eqb x x00); assumption. }
  rewrite Hmap. reflexivity.
Qed.

Lemma calcDefaultPreVerificationGas_byte_costs_modulo_witness :
  calcDefaultPreVerificationGas
    Example.op (Some (withByteCosts Partial.empty 4 272))
  = calcDefaultPreVerificationGas
      Example.op (Some (withByteCosts Partial.empty 4 16)).
Proof.
  apply (calcDefaultPreVerificationGas_byte_costs_modulo
           Example.op Partial.empty 4 272 4 16); reflexivity.
Defined.

(** ** The static fee is added on top *)

(** X16.  Both rollup calculators add the static fee to a surcharge that
    does not depend on it: with a static fee raised by [d] they make the
    same calls, throw the same exception or return [d] more. *)
Theorem rollup_calculators_add_staticFee
        (env : Env.t) (op : UnPackedUserOperation) (entryPoint : string)
        (staticFee d : Z) :
  (forall publicClient logger,
      calcOptimismPreVerificationGas
        env publicClient op entryPoint (staticFee + d) logger
      = shifted d (calcOptimismPreVerificationGas
                     env publicClient op entryPoint staticFee logger)) /\
  (forall publicClient,
      calcArbitrumPreVerificationGas
        env publicClient op entryPoint (staticFee + d)
      = shifted d (calcArbitrumPreVerificationGas
                     env publicClient op entryPoint staticFee)).
Proof.
  split.
  - intros publicClient logger.
    rewrite !calcOptimismPreVerificationGas_cases.
    destruct (handleOpsData env op entryPoint); [reflexivity|].
    destruct (PublicClient.getBlock publicClient) as [e|block];
      [reflexivity|].
    destruct (Block.baseFeePerGas block); [|reflexivity].
    destruct (Env.serializeTransaction env _ placeholderSignature);
      [reflexivity|].
    destruct (PublicClient.getL1Fee publicClient opGasPriceOracle _);
      [reflexivity|].
    destruct (Env.getGasPrice env _ publicClient true); [reflexivity|].
    unfold shifted. cbn [calls outcome fst snd].
    destruct (bigint_div _ _); cbn [bindR ok]; [reflexivity|].
    apply f_equal. apply f_equal. lia.
  - intros publicClient.
    rewrite !calcArbitrumPreVerificationGas_cases.
    destruct (handleOpsData env op entryPoint); [reflexivity|].
    destruct (Env.serializeTransaction env _ placeholderSignature);
      [reflexivity|].
    destruct (PublicClient.gasEstimateL1Component publicClient _ _ _ _);
      [reflexivity|].
    unfold shifted. cbn [calls outcome fst snd]. unfold ok.
    apply f_equal. apply f_equal. lia.
Qed.

(** ** The call gas limit follows what was paid *)

(** X17.  With the same operation, client and chain, a simulation that
    paid more (both amounts unsigned, the price positive) never gets a
    lower call gas limit, and gets the same verification gas limit. *)
Theorem calcVerificationGasAndCallGasLimit_monotone_in_paid
        (env : Env.t) (publicClient : PublicClient.t Chain.t)
        (op : UnPackedUserOperation) (preOp paid1 paid2 : Z) (chainId : Z)
        (v1 c1 v2 c2 : Z) :
  0 <= paid1 <= paid2 ->
  outcome (calcVerificationGasAndCallGasLimit
             env publicClient op {| preOpGas := preOp; paid := paid1 |}
             chainId)
  = ok (v1, c1) ->
  outcome (calcVerificationGasAndCallGasLimit
             env publicClient op {| preOpGas := preOp; paid := paid2 |}
             chainId)
  = ok (v2, c2) ->
  (forall block,
      PublicClient.getBlock publicClient = ok block ->
      0 < gasPrice_spec op (Block.baseFeePerGas block)) ->
  0 < UserOp.maxFeePerGas op ->
  v1 = v2 /\ c1 <= c2.
Proof.
  intros Hpaid H1 H2 Hprice Hmax.
  rewrite calcVerificationGasAndCallGasLimit_cases in H1, H2.
  cbv zeta in H1, H2. cbn [preOpGas paid] in H1, H2.
  assert (Hfinish :
            forall price,
              0 < price ->
              (quotient <- bigint_div paid1 price ;;
               ok (Z.quot ((preOp - UserOp.preVerificationGas op) * 3) 2,
                   if isBaseFamily env chainId
                   then Z.quot
                          (110 * Z.max (quotient - preOp + 21000 + 50000) 9000)
                          100
                   else Z.max (quotient - preOp + 21000 + 50000) 9000))
              = ok (v1, c1) ->
              (quotient <- bigint_div paid2 price ;;
               ok (Z.quot ((preOp - UserOp.preVerificationGas op) * 3) 2,
                   if isBaseFamily env chainId
                   then Z.quot
                          (110 * Z.max (quotient - preOp + 21000 + 50000) 9000)
                          100
                   else Z.max (quotient - preOp + 21000 + 50000) 9000))
              = ok (v2, c2) ->
              v1 = v2 /\ c1 <= c2).
  { intros price Hp.
    rewrite !bigint_div_floor by lia. unfold ok. cbn [bindR].
    intros E1 E2.
    pose proof (f_equal (fun r : Result (Z * Z) =>
                           match r with inr p => fst p | inl _ => 0 end) E1)
      as Hv1.
    pose proof (f_equal (fun r : Result (Z * Z) =>
                           match r with inr p => snd p | inl _ => 0 end) E1)
      as Hc1.
    pose proof (f_equal (fun r : Result (Z * Z) =>
                           match r with inr p => fst p | inl _ => 0 end) E2)
      as Hv2.
    pose proof (f_equal (fun r : Result (Z * Z) =>
                           match r with inr p => snd p | inl _ => 0 end) E2)
      as Hc2.
    cbv beta iota delta [fst snd] in Hv1, Hc1, Hv2, Hc2.
    split; [congruence|].
    assert (Hq : paid1 / price <= paid2 / price)
      by (apply Z.div_le_mono; lia).
    set (m1 := Z.max (paid1 / price - preOp + 21000 + 50000) 9000) in *.
    set (m2 := Z.max (paid2 / price - preOp + 21000 + 50000) 9000) in *.
    assert (Hm : 9000 <= m1 <= m2) by (subst m1 m2; lia).
    destruct (isBaseFamily env chainId); [|lia].
    subst c1 c2. rewrite !Z.quot_div_nonneg by lia.
    apply Z.div_le_mono; lia. }
  destruct (Z.eqb_spec (UserOp.maxPriorityFeePerGas op)
                       (UserOp.maxFeePerGas op)) as [E|E].
  - cbn [outcome snd] in H1, H2. exact (Hfinish _ Hmax H1 H2).
  - destruct (PublicClient.getBlock publicClient) as [e|block] eqn:Eb;
      [discriminate|].
    cbn [outcome snd] in H1, H2.
    specialize (Hprice block eq_refl). unfold gasPrice_spec in Hprice.
    destruct (Z.eqb_spec (UserOp.maxPriorityFeePerGas op)
                         (UserOp.maxFeePerGas op)); [contradiction|].
    exact (Hfinish _ Hprice H1 H2).
Qed.

Lemma calcVerificationGasAndCallGasLimit_monotone_in_paid_witness :
  90000 = 90000 /\ 71000 <= 171000.
Proof.
  apply (calcVerificationGasAndCallGasLimit_monotone_in_paid
           (Example.env (GasPrice.mk 1 1))
           (Example.client 1 None 0 (0, 0, 0))
           (Example.withFees Example.op 40000 100 100)
           100000 10000000 20000000 1 90000 71000 90000 171000).
  - lia.
  - vm_compute. reflexivity.
  - vm_compute. reflexivity.
  - intros block H. vm_compute. reflexivity.
  - simpl. lia.
Defined.
